(** * Presence registry and signaling relay of [server.js]

    A shallow embedding of the socket part of [src/server.js]: the two global
    maps [onlineUsers] and [userSocketMap], the function
    [getUniqueOnlineUsers], the registration callback of the ["connection"]
    listener and the eight per-socket event handlers.

    - JavaScript values that travel in event payloads are the type [JSVal].
    - A JavaScript [Map] is an association list in insertion order ([JSMap]):
      [Map.prototype.set] on a present key keeps the key's position, on an
      absent key appends; iteration follows the list.
    - A handler is a function from the socket, the payload and the registry
      state to either a thrown exception or the new state together with the
      list of effects it performed, in program order ([db.saveMessage],
      [socket.join], and the three ways of emitting).
    - socket.io's delivery rule for the three ways of emitting is the function
      [recipients] over the adapter's room table ([Transport]). *)

From Stdlib Require Import String Ascii List ZArith Bool Arith Lia DecimalString.
Import ListNotations.
Local Open Scope string_scope.
Local Open Scope list_scope.

Set Implicit Arguments.
Set Warnings "-register-all".

(* ------------------------------------------------------------------ *)
(** ** JavaScript values carried by events *)

(** Payloads arrive as parsed JSON.  Numbers are never computed with by the
    handlers, they are only stored or forwarded; the embedding carries the
    integers. *)
Inductive JSVal : Type :=
| VUndefined
| VNull
| VBool (b : bool)
| VNum (n : Z)
| VStr (s : string)
| VArr (items : list JSVal)
| VObj (fields : list (string * JSVal)).

Inductive Exn : Type :=
| TypeError (msg : string).

Inductive Result (A : Type) : Type :=
| Ok (a : A)
| Throw (e : Exn).

Arguments Ok {A} a.
Arguments Throw {A} e.

Definition bind {A B : Type} (r : Result A) (k : A -> Result B) : Result B :=
  match r with
  | Ok a => k a
  | Throw e => Throw e
  end.

Notation "x <- r ;; k" := (bind r (fun x => k))
  (at level 61, r at next level, right associativity).

(* ------------------------------------------------------------------ *)
(** ** [Map], as an insertion-ordered association list *)

Module JSMap.

Definition t (V : Type) : Type := list (string * V).

Section Ops.
Variable V : Type.

Definition empty : t V := [].

(** [m.get(k)]: [None] stands for [undefined]. *)
Fixpoint get (k : string) (m : t V) : option V :=
  match m with
  | [] => None
  | (k', v) :: rest => if String.eqb k k' then Some v else get k rest
  end.

(** [m.has(k)]. *)
Definition has (k : string) (m : t V) : bool :=
  match get k m with
  | Some _ => true
  | None => false
  end.

(** [m.set(k, v)]: a present key keeps its place, a new key goes last. *)
Fixpoint set (k : string) (v : V) (m : t V) : t V :=
  match m with
  | [] => [(k, v)]
  | (k', v') :: rest =>
      if String.eqb k k' then (k', v) :: rest else (k', v') :: set k v rest
  end.

(** [m.delete(k)]. *)
Definition delete (k : string) (m : t V) : t V :=
  filter (fun e => negb (String.eqb k (fst e))) m.

(** [m.keys()] and [Array.from(m.values())]. *)
Definition keys (m : t V) : list string := map fst m.
Definition values (m : t V) : list V := map snd m.

End Ops.

Arguments empty {V}.

End JSMap.

(* ------------------------------------------------------------------ *)
(** ** Property access, spread and truthiness *)

(** [v.k] for the property names the handlers read ([target], [room], [type],
    [callMode], [text], [image], [to], [offer], [answer], [candidate]): none
    of them is defined on the prototypes of strings, numbers, booleans or
    arrays, so only an object can answer with something else than
    [undefined].  Reading a property of [undefined] or [null] throws. *)
Definition get_prop (v : JSVal) (k : string) : Result JSVal :=
  match v with
  | VUndefined =>
      Throw (TypeError ("Cannot read properties of undefined (reading '" ++ k ++ "')"))
  | VNull =>
      Throw (TypeError ("Cannot read properties of null (reading '" ++ k ++ "')"))
  | VObj fields =>
      match JSMap.get k fields with
      | Some x => Ok x
      | None => Ok VUndefined
      end
  | _ => Ok VUndefined
  end.

Definition is_nullish (v : JSVal) : bool :=
  match v with
  | VUndefined | VNull => true
  | _ => false
  end.

Definition index_key (i : nat) : string :=
  NilEmpty.string_of_uint (Nat.to_uint i).

Fixpoint indexed (A : Type) (f : A -> JSVal) (i : nat) (l : list A)
  : list (string * JSVal) :=
  match l with
  | [] => []
  | x :: rest => (index_key i, f x) :: indexed f (S i) rest
  end.

(** The own enumerable properties copied by [{ ...v }]. *)
Definition spread (v : JSVal) : list (string * JSVal) :=
  match v with
  | VObj fields => fields
  | VArr items => indexed (fun x => x) 0 items
  | VStr s => indexed (fun c => VStr (String c EmptyString)) 0 (list_ascii_of_string s)
  | _ => []
  end.

(** [SameValueZero], the key comparison of [Map] and [Set].  Two objects or
    arrays parsed from different packets are never the same reference. *)
Definition same_value_zero (a b : JSVal) : bool :=
  match a, b with
  | VUndefined, VUndefined => true
  | VNull, VNull => true
  | VBool x, VBool y => Bool.eqb x y
  | VNum x, VNum y => Z.eqb x y
  | VStr x, VStr y => String.eqb x y
  | _, _ => false
  end.

(* ------------------------------------------------------------------ *)
(** ** Sockets, sessions and the registry *)

(** What a handler closure sees of its [socket]: the transport's id and the
    two fields the [io.use] middleware copied from the verified token. *)
Record Socket : Type := mkSocket {
  sock_id : string;
  sock_username : string;
  sock_userId : Z
}.

(** The object stored in [onlineUsers]. *)
Record User : Type := mkUser {
  username : string;
  isBusy : bool;
  currentRoom : JSVal;
  avatar : JSVal
}.

Definition set_isBusy (b : bool) (u : User) : User :=
  mkUser (username u) b (currentRoom u) (avatar u).

Definition set_currentRoom (r : JSVal) (u : User) : User :=
  mkUser (username u) (isBusy u) r (avatar u).

Definition user_to_js (u : User) : JSVal :=
  VObj [("username", VStr (username u)); ("isBusy", VBool (isBusy u));
        ("currentRoom", currentRoom u); ("avatar", avatar u)].

(** The globals: [onlineUsers] maps a socket id to its session,
    [userSocketMap] maps a username to a socket id. *)
Record State : Type := mkState {
  onlineUsers : JSMap.t User;
  userSocketMap : JSMap.t string
}.

Definition initial : State := mkState JSMap.empty JSMap.empty.

(** One round of the loop of [getUniqueOnlineUsers]. *)
Definition unique_step (uniqueMap : JSMap.t User) (entry : string * User)
  : JSMap.t User :=
  let user := snd entry in
  if negb (JSMap.has (username user) uniqueMap) then
    JSMap.set (username user) user uniqueMap
  else
    match JSMap.get (username user) uniqueMap with
    | Some existing =>
        if isBusy user
        then JSMap.set (username user) (set_isBusy true existing) uniqueMap
        else uniqueMap
    | None => uniqueMap
    end.

Definition getUniqueOnlineUsers (online : JSMap.t User) : list User :=
  JSMap.values (fold_left unique_step online JSMap.empty).

(** [userSocketMap.get(key)] with a key read from a payload: the map's keys
    are strings, so any other value finds nothing. *)
Definition routeTo (st : State) (key : JSVal) : option string :=
  match key with
  | VStr u => JSMap.get u (userSocketMap st)
  | _ => None
  end.

(** The body of the avatar callback, without its broadcast. *)
Definition register (s : Socket) (av : JSVal) (st : State) : State :=
  mkState
    (JSMap.set (sock_id s) (mkUser (sock_username s) false VNull av) (onlineUsers st))
    (JSMap.set (sock_username s) (sock_id s) (userSocketMap st)).

(** The registry part of the ["join"] handler. *)
Definition markBusy (id : string) (room : JSVal) (st : State) : State :=
  match JSMap.get id (onlineUsers st) with
  | Some user =>
      mkState
        (JSMap.set id (set_currentRoom room (set_isBusy true user)) (onlineUsers st))
        (userSocketMap st)
  | None => st
  end.

(** The registry part of the ["disconnect"] handler. *)
Definition unregister (s : Socket) (st : State) : State :=
  mkState
    (JSMap.delete (sock_id s) (onlineUsers st))
    (JSMap.delete (sock_username s) (userSocketMap st)).

(* ------------------------------------------------------------------ *)
(** ** Effects of a handler *)

(** Where an emit goes: [socket.emit], [socket.to(room).emit], [io.emit]. *)
Inductive Dest : Type :=
| ToSender
| ToRoom (room : JSVal)
| ToAll.

(** What a handler does to the outside, with the arguments of the call. *)
Inductive Effect : Type :=
| SaveMessage (sender : string) (receiver room message image : JSVal) (kind : string)
| JoinRoom (room : JSVal)
| Emit (dest : Dest) (event : string) (payload : JSVal).

Definition Outcome : Type := Result (State * list Effect).

Definition update_user_list (st : State) : Effect :=
  Emit ToAll "update-user-list"
       (VArr (map user_to_js (getUniqueOnlineUsers (onlineUsers st)))).

(** [!targetId] on what [userSocketMap.get] returned: [undefined] and the
    empty string are falsy. *)
Definition falsy_id (targetId : option string) : bool :=
  match targetId with
  | None => true
  | Some id => String.eqb id ""
  end.

Definition id_or_undefined (targetId : option string) : JSVal :=
  match targetId with
  | Some id => VStr id
  | None => VUndefined
  end.

(** [{ ...data, sender: socket.username, time: <clock> }]. *)
Definition stamped (data : JSVal) (sender time : string) : JSVal :=
  VObj (JSMap.set "time" (VStr time)
          (JSMap.set "sender" (VStr sender) (spread data))).

(* ------------------------------------------------------------------ *)
(** ** The handlers of the ["connection"] listener *)

(** The callback given to [db.getUserAvatar]; [av] is
    [results?.[0]?.avatar]. *)
Definition on_connection (s : Socket) (av : JSVal) (st : State) : Outcome :=
  let st' := register s av st in
  Ok (st', [update_user_list st']).

Definition on_initiate_call (s : Socket) (data : JSVal) (st : State) : Outcome :=
  target <- get_prop data "target" ;;
  let targetId := routeTo st target in
  if falsy_id targetId then
    Ok (st, [Emit ToSender "call-rejected"
                  (VObj [("from", VStr "System"); ("reason", VStr "offline")])])
  else
    room <- get_prop data "room" ;;
    type <- get_prop data "type" ;;
    callMode <- get_prop data "callMode" ;;
    Ok (st, [Emit (ToRoom (id_or_undefined targetId)) "incoming-call"
                  (VObj [("from", VStr (sock_username s)); ("room", room);
                         ("type", type); ("callMode", callMode)])]).

Definition on_join (s : Socket) (data : JSVal) (st : State) : Outcome :=
  room <- get_prop data "room" ;;
  let st' := markBusy (sock_id s) room st in
  Ok (st', [JoinRoom room;
            update_user_list st';
            Emit (ToRoom room) "user-joined"
                 (VObj [("id", VStr (sock_id s));
                        ("username", VStr (sock_username s))])]).

(** [now] is what [new Date().toLocaleTimeString()] returns. *)
Definition on_chat_message (s : Socket) (data : JSVal) (now : string) (st : State)
  : Outcome :=
  room <- get_prop data "room" ;;
  text <- get_prop data "text" ;;
  image <- get_prop data "image" ;;
  Ok (st, [SaveMessage (sock_username s) VNull room text image "group";
           Emit (ToRoom room) "chat-message" (stamped data (sock_username s) now)]).

(** The clock is read once for the forward (only when a route was found) and
    once for the echo: [now_fwd] and [now_echo]. *)
Definition on_private_chat (s : Socket) (data : JSVal) (now_fwd now_echo : string)
    (st : State) : Outcome :=
  to <- get_prop data "to" ;;
  text <- get_prop data "text" ;;
  image <- get_prop data "image" ;;
  let targetId := routeTo st to in
  let forward :=
    if falsy_id targetId then []
    else [Emit (ToRoom (id_or_undefined targetId)) "private-chat"
               (stamped data (sock_username s) now_fwd)] in
  Ok (st, [SaveMessage (sock_username s) to VNull text image "private"]
          ++ forward
          ++ [Emit ToSender "private-chat" (stamped data (sock_username s) now_echo)]).

Definition on_disconnect (s : Socket) (st : State) : Outcome :=
  let st' := unregister s st in
  Ok (st', [update_user_list st']).

Definition on_offer (s : Socket) (d : JSVal) (st : State) : Outcome :=
  to <- get_prop d "to" ;;
  body <- get_prop d "offer" ;;
  Ok (st, [Emit (ToRoom to) "offer"
                (VObj [("offer", body); ("from", VStr (sock_id s));
                       ("username", VStr (sock_username s))])]).

Definition on_answer (s : Socket) (d : JSVal) (st : State) : Outcome :=
  to <- get_prop d "to" ;;
  body <- get_prop d "answer" ;;
  Ok (st, [Emit (ToRoom to) "answer"
                (VObj [("answer", body); ("from", VStr (sock_id s))])]).

Definition on_ice (s : Socket) (d : JSVal) (st : State) : Outcome :=
  to <- get_prop d "to" ;;
  body <- get_prop d "candidate" ;;
  Ok (st, [Emit (ToRoom to) "ice"
                (VObj [("candidate", body); ("from", VStr (sock_id s))])]).

(* ------------------------------------------------------------------ *)
(** ** Events and runs *)

(** What can happen at the server: the avatar callback of a socket fires, or
    one of its listeners is called with the payload the client sent. *)
Inductive Event : Type :=
| EvRegister (s : Socket) (av : JSVal)
| EvInitiateCall (s : Socket) (data : JSVal)
| EvJoin (s : Socket) (data : JSVal)
| EvChatMessage (s : Socket) (data : JSVal) (now : string)
| EvPrivateChat (s : Socket) (data : JSVal) (now_fwd now_echo : string)
| EvDisconnect (s : Socket)
| EvOffer (s : Socket) (d : JSVal)
| EvAnswer (s : Socket) (d : JSVal)
| EvIce (s : Socket) (d : JSVal).

Definition event_socket (e : Event) : Socket :=
  match e with
  | EvRegister s _ | EvInitiateCall s _ | EvJoin s _ | EvChatMessage s _ _
  | EvPrivateChat s _ _ _ | EvDisconnect s | EvOffer s _ | EvAnswer s _
  | EvIce s _ => s
  end.

Definition step (e : Event) (st : State) : Outcome :=
  match e with
  | EvRegister s av => on_connection s av st
  | EvInitiateCall s data => on_initiate_call s data st
  | EvJoin s data => on_join s data st
  | EvChatMessage s data now => on_chat_message s data now st
  | EvPrivateChat s data t1 t2 => on_private_chat s data t1 t2 st
  | EvDisconnect s => on_disconnect s st
  | EvOffer s d => on_offer s d st
  | EvAnswer s d => on_answer s d st
  | EvIce s d => on_ice s d st
  end.

(** A run processes the events in order.  No listener catches anything, so a
    throwing handler ends the run. *)
Fixpoint run (tr : list Event) (st : State) : Result State :=
  match tr with
  | [] => Ok st
  | e :: rest =>
      match step e st with
      | Ok (st', _) => run rest st'
      | Throw x => Throw x
      end
  end.

(* ------------------------------------------------------------------ *)
(** ** Delivery by the transport *)

(** The adapter's table: each connected socket with the rooms it entered by
    [socket.join].  Every socket is also in the room named by its own id,
    which it enters when it connects and which the program never leaves. *)
Definition Transport : Type := list (string * list JSVal).

(** [socket.to(x)] and [socket.join(x)] take one room or an array of rooms. *)
Definition target_rooms (room : JSVal) : list JSVal :=
  match room with
  | VArr items => items
  | _ => [room]
  end.

Definition in_one_room (r : JSVal) (entry : string * list JSVal) : bool :=
  same_value_zero r (VStr (fst entry)) || existsb (same_value_zero r) (snd entry).

Definition members (tp : Transport) (r : JSVal) : list string :=
  nodup string_dec (map fst (filter (in_one_room r) tp)).

Definition connected (tp : Transport) : list string :=
  nodup string_dec (map fst tp).

(** The sockets a broadcast to [room] addresses; with no room at all the
    adapter addresses every socket. *)
Definition addressed (tp : Transport) (room : JSVal) : list string :=
  match target_rooms room with
  | [] => connected tp
  | rs =>
      nodup string_dec
        (map fst (filter (fun e => existsb (fun r => in_one_room r e) rs) tp))
  end.

Definition mem (id : string) (l : list string) : bool :=
  existsb (String.eqb id) l.

(** Who receives an emit of the socket [sender]: [socket.emit] reaches that
    socket; [socket.to(room).emit] reaches the addressed sockets outside the
    room named by the sender's id, that is, not the sender; [io.emit] reaches
    every connected socket. *)
Definition recipients (tp : Transport) (sender : string) (d : Dest) : list string :=
  match d with
  | ToSender => [sender]
  | ToRoom room =>
      filter (fun id => negb (mem id (members tp (VStr sender)))) (addressed tp room)
  | ToAll => connected tp
  end.

(** The transport's own transitions: a socket connects, a socket enters
    rooms. *)
Definition tp_connect (id : string) (tp : Transport) : Transport :=
  tp ++ [(id, [])].

Definition tp_join (id : string) (room : JSVal) (tp : Transport) : Transport :=
  map (fun e => if String.eqb (fst e) id
                then (fst e, snd e ++ target_rooms room) else e) tp.

(** One received event: the receiving socket, the event name, the payload. *)
Definition Delivery : Type := (string * string * JSVal)%type.

Definition deliver (tp : Transport) (sender : string) (eff : Effect) : list Delivery :=
  match eff with
  | Emit d ev payload => map (fun id => (id, ev, payload)) (recipients tp sender d)
  | _ => []
  end.

Definition deliveries (tp : Transport) (sender : string) (effs : list Effect)
  : list Delivery :=
  flat_map (deliver tp sender) effs.

(** The payloads of the events named [ev] that socket [id] receives. *)
Definition received (id ev : string) (ds : list Delivery) : list JSVal :=
  map snd
      (filter (fun d => String.eqb (fst (fst d)) id && String.eqb (snd (fst d)) ev) ds).

(** The events named [ev] received by anybody. *)
Definition received_by_any (ev : string) (ds : list Delivery) : list Delivery :=
  filter (fun d => String.eqb (snd (fst d)) ev) ds.

Definition is_save (eff : Effect) : bool :=
  match eff with
  | SaveMessage _ _ _ _ _ _ => true
  | _ => false
  end.

(** The calls of [db.saveMessage] among the effects. *)
Definition saves (effs : list Effect) : list Effect := filter is_save effs.

(* ------------------------------------------------------------------ *)
(** ** Vocabulary of the properties *)

(** [data.k] where it cannot throw. *)
Definition field (data : JSVal) (k : string) : JSVal :=
  match get_prop data k with
  | Ok v => v
  | Throw _ => VUndefined
  end.



(** Every socket id stored in [userSocketMap] is a key of [onlineUsers]. *)
Definition routes_live (st : State) : bool :=
  forallb (fun e => JSMap.has (snd e) (onlineUsers st)) (userSocketMap st).

(** A socket id belongs to one socket, hence to one username. *)
Definition sockets_consistent (socks : list Socket) : Prop :=
  forall s1 s2, In s1 socks -> In s2 socks ->
                sock_id s1 = sock_id s2 -> sock_username s1 = sock_username s2.

(** The id of the socket whose registration for [u] came last in the run. *)
Fixpoint last_registered (u : string) (tr : list Event) : option string :=
  match tr with
  | [] => None
  | e :: rest =>
      match last_registered u rest with
      | Some c => Some c
      | None =>
          match e with
          | EvRegister s _ =>
              if String.eqb (sock_username s) u then Some (sock_id s) else None
          | _ => None
          end
      end
  end.

(** The socket ids whose avatar callback fired, in order. *)
Fixpoint registered_ids (tr : list Event) : list string :=
  match tr with
  | [] => []
  | EvRegister s _ :: rest => sock_id s :: registered_ids rest
  | _ :: rest => registered_ids rest
  end.

(** Whether the run contains the disconnect of the socket with id [c]. *)
Definition disconnects (c : string) (tr : list Event) : bool :=
  existsb (fun e => match e with
                    | EvDisconnect s => String.eqb (sock_id s) c
                    | _ => false
                    end) tr.

(** Whether every join of the socket with id [c] in the run carries a room
    other than [undefined] and [null]. *)
Definition joins_name_room (c : string) (tr : list Event) : bool :=
  forallb (fun e => match e with
                    | EvJoin s data =>
                        if String.eqb (sock_id s) c
                        then negb (is_nullish (field data "room")) else true
                    | _ => true
                    end) tr.

(** Whether some live session of [u] is busy. *)
Definition some_session_busy (u : string) (online : JSMap.t User) : bool :=
  existsb (fun e => String.eqb (username (snd e)) u && isBusy (snd e)) online.

(** What the loop of [getUniqueOnlineUsers] maintains, with [seen] the
    sessions already visited and [um] the value of [uniqueMap]. *)
Definition unique_inv (seen : JSMap.t User) (um : JSMap.t User) : Prop :=
  NoDup (JSMap.keys um)
  /\ (forall k u, JSMap.get k um = Some u ->
                  username u = k /\ isBusy u = some_session_busy k seen)
  /\ (forall e, In e seen -> JSMap.has (username (snd e)) um = true).

(** What a successful step does to the registry. *)
Definition registry_effect (e : Event) (st : State) : State :=
  match e with
  | EvRegister s av => register s av st
  | EvJoin s data => markBusy (sock_id s) (field data "room") st
  | EvDisconnect s => unregister s st
  | _ => st
  end.

(** Whether [e] is the registration or the disconnect of socket id [c]. *)
Definition opens_or_closes (c : string) (e : Event) : bool :=
  match e with
  | EvRegister s _ | EvDisconnect s => String.eqb (sock_id s) c
  | _ => false
  end.

(** Whether [e] writes the route of username [u]. *)
Definition writes_route (u : string) (e : Event) : bool :=
  match e with
  | EvRegister s _ | EvDisconnect s => String.eqb (sock_username s) u
  | _ => false
  end.

(** The invariant carried along a run whose sockets are among [socks]: a
    route leads to a session of that username, and a session was opened by
    one of the sockets. *)
Definition registry_inv (socks : list Socket) (st : State) : Prop :=
  (forall u c, In (u, c) (userSocketMap st) ->
     exists user, JSMap.get c (onlineUsers st) = Some user /\ username user = u)
  /\ (forall c user, JSMap.get c (onlineUsers st) = Some user ->
        exists s, In s socks /\ sock_id s = c /\ sock_username s = username user).

(* ------------------------------------------------------------------ *)
(** ** Sample sockets, payloads and transport *)

Definition alice1 : Socket := mkSocket "c1" "alice" 1.
Definition alice2 : Socket := mkSocket "c2" "alice" 1.
Definition bob : Socket := mkSocket "c3" "bob" 2.

Definition call_payload (target : string) : JSVal :=
  VObj [("target", VStr target); ("room", VStr "r1");
        ("type", VStr "video"); ("callMode", VStr "p2p")].

Definition chat_payload (to : string) : JSVal :=
  VObj [("to", VStr to); ("text", VStr "hi"); ("image", VNull)].

Definition sdp : JSVal :=
  VObj [("type", VStr "offer"); ("sdp", VStr "v=0")].

(** [c1], [c2] and [c3] are connected and [c3] has entered room [r1]. *)
Definition three_connected : Transport :=
  tp_join "c3" (VStr "r1") (tp_connect "c3" (tp_connect "c2" (tp_connect "c1" []))).

(* ------------------------------------------------------------------ *)
(** ** Further vocabulary: the view, liveness, kinds of events *)

(** The elements of [l] in order of first appearance, leaving out those in
    [seen]. *)
Fixpoint first_occurrences (seen l : list string) : list string :=
  match l with
  | [] => []
  | x :: rest =>
      if mem x seen then first_occurrences seen rest
      else x :: first_occurrences (seen ++ [x]) rest
  end.

(** The usernames of the stored sessions, in the order of [onlineUsers]. *)
Definition session_usernames (online : JSMap.t User) : list string :=
  map (fun p => username (snd p)) online.

(** The first session of [u] in the order of [onlineUsers]. *)
Definition first_session (u : string) (online : JSMap.t User)
  : option (string * User) :=
  find (fun p => String.eqb (username (snd p)) u) online.

(** What the loop of [getUniqueOnlineUsers] keeps about the entry of a
    username: its avatar and room are those of the username's first
    session. *)
Definition representative_inv (seen : JSMap.t User) (um : JSMap.t User) : Prop :=
  (forall k u, JSMap.get k um = Some u ->
     exists p, first_session k seen = Some p
               /\ avatar u = avatar (snd p)
               /\ currentRoom u = currentRoom (snd p))
  /\ (forall e, In e seen -> JSMap.has (username (snd e)) um = true).

(** Whether the last registration or disconnect of socket id [c] in a run
    was a registration; [b] is the answer before the event. *)
Definition live_step (c : string) (b : bool) (e : Event) : bool :=
  match e with
  | EvRegister s _ => if String.eqb (sock_id s) c then true else b
  | EvDisconnect s => if String.eqb (sock_id s) c then false else b
  | _ => b
  end.

Definition live (c : string) (tr : list Event) : bool :=
  fold_left (live_step c) tr false.

(** The events whose handler ends with [io.emit("update-user-list", ...)]. *)
Definition broadcasts_presence (e : Event) : bool :=
  match e with
  | EvRegister _ _ | EvJoin _ _ | EvDisconnect _ => true
  | _ => false
  end.

(** The events that only relay: call initiation and the three handshake
    messages. *)
Definition is_signaling (e : Event) : bool :=
  match e with
  | EvInitiateCall _ _ | EvOffer _ _ | EvAnswer _ _ | EvIce _ _ => true
  | _ => false
  end.

Definition is_message (e : Event) : bool :=
  match e with
  | EvChatMessage _ _ _ | EvPrivateChat _ _ _ _ => true
  | _ => false
  end.

(** A value that names one room: anything but an array ([to] and [join]
    spread arrays) or an object (never the same reference twice). *)
Definition names_a_room (r : JSVal) : bool := same_value_zero r r.

(** [c1] and [c3] have entered room [r1], [c2] has not. *)
Definition room_r1 : Transport :=
  tp_join "c1" (VStr "r1") three_connected.

Definition room_message : JSVal :=
  VObj [("room", VStr "r1"); ("text", VStr "hi"); ("image", VNull);
        ("sender", VStr "mallory")].

(* ------------------------------------------------------------------ *)
(** ** The message store: [db.saveMessage] *)







(* ------------------------------------------------------------------ *)
(** ** The meeting code of [/api/create-meeting] *)

Definition digit_char (d : N) : ascii :=
  match d with
  | 0 => "0" | 1 => "1" | 2 => "2" | 3 => "3" | 4 => "4"
  | 5 => "5" | 6 => "6" | 7 => "7" | 8 => "8" | _ => "9"
  end%N%char.

(** The decimal digits of [n] in front of [acc], most significant first. *)
Fixpoint to_digits (fuel : nat) (n : N) (acc : list ascii) : list ascii :=
  match fuel with
  | O => acc
  | S f =>
      let acc' := digit_char (n mod 10)%N :: acc in
      if (n / 10 =? 0)%N then acc' else to_digits f (n / 10)%N acc'
  end.

(** [n.toString()] for a non-negative integer; a number has no more decimal
    digits than binary ones. *)
Definition number_toString (n : N) : string :=
  string_of_list_ascii (to_digits (S (N.to_nat (N.log2 n))) n []).

(** [\d]. *)
Definition is_digit (c : ascii) : bool :=
  Nat.leb 48 (nat_of_ascii c) && Nat.leb (nat_of_ascii c) 57.

(** [s.replace(/(\d{3})(\d{3})(\d{3})/, '$1-$2-$3')]: the leftmost nine
    consecutive digits are regrouped, the rest is kept. *)
Fixpoint replace_groups (s : list ascii) : list ascii :=
  match s with
  | [] => []
  | a :: tl =>
      match tl with
      | b :: c :: d :: e :: f :: g :: h :: i :: rest =>
          if forallb is_digit [a; b; c; d; e; f; g; h; i]
          then a :: b :: c :: "-"%char :: d :: e :: f :: "-"%char :: g :: h :: i :: rest
          else a :: replace_groups tl
      | _ => a :: tl
      end
  end.

(** The code made from the number [crypto.randomInt] returned. *)
Definition meeting_code (n : N) : string :=
  string_of_list_ascii
    (replace_groups (list_ascii_of_string (number_toString n))).

(** The last [k] decimal digits of [n], with leading zeros. *)
Fixpoint decimal (k : nat) (n : N) : list ascii :=
  match k with
  | O => []
  | S k' => decimal k' (n / 10)%N ++ [digit_char (n mod 10)%N]
  end.

Fixpoint pow10 (k : nat) : N :=
  match k with
  | O => 1%N
  | S k' => (10 * pow10 k')%N
  end.

Definition digit_value (c : ascii) : option N :=
  if is_digit c then Some (N_of_ascii c - 48)%N else None.

Fixpoint parse_digits (acc : N) (l : list ascii) : option N :=
  match l with
  | [] => Some acc
  | c :: rest =>
      match digit_value c with
      | Some d => parse_digits (10 * acc + d)%N rest
      | None => None
      end
  end.

(** The number a code stands for: its digits, read without the dashes. *)
Definition code_number (code : string) : option N :=
  parse_digits 0%N
    (filter (fun c => negb (Ascii.eqb c "-")) (list_ascii_of_string code)).

(* ------------------------------------------------------------------ *)
(** ** The bearer token of the HTTP handlers *)

(** [s.split(" ")]. *)
Fixpoint split_space (s : string) : list string :=
  match s with
  | EmptyString => [EmptyString]
  | String c rest =>
      if Ascii.eqb c " " then EmptyString :: split_space rest
      else match split_space rest with
           | piece :: pieces => String c piece :: pieces
           | [] => [String c EmptyString]
           end
  end.

(** [req.headers.authorization?.split(" ")[1]]; [None] is [undefined]. *)
Definition bearer_token (authorization : option string) : option string :=
  match authorization with
  | None => None
  | Some header => nth_error (split_space header) 1
  end.

Fixpoint has_space (s : string) : bool :=
  match s with
  | EmptyString => false
  | String c rest => Ascii.eqb c " " || has_space rest
  end.

(* ------------------------------------------------------------------ *)
(** ** The conversation sent to the assistant by [/api/ai-chat] *)

(** A row of [db.getAIChatHistory] and a turn
    [{ role, parts: [{ text }] }]. *)
Record Row : Type := mkRow {
  row_sender : string;
  row_message : JSVal
}.

Record Turn : Type := mkTurn {
  turn_role : string;
  turn_text : JSVal
}.

(** [a === b] on parsed values; numbers are the integers carried here. *)
Definition strict_equal (a b : JSVal) : bool := same_value_zero a b.

Definition turn_of_row (row : Row) : Turn :=
  mkTurn (if String.eqb (row_sender row) "V-Chat AI" then "model" else "user")
         (row_message row).

(** [(results || []).reverse().map(...).filter(...)] followed by the
    [push]; [results] is [None] when the query failed. *)
Definition chat_history (results : option (list Row)) (message : JSVal)
  : list Turn :=
  let rows := match results with Some r => r | None => [] end in
  filter (fun h => negb (strict_equal (turn_text h) message))
         (map turn_of_row (rev rows))
  ++ [mkTurn "user" message].

(* ------------------------------------------------------------------ *)
(** ** Facts about [JSMap] *)

Unset Implicit Arguments.

Section JSMapFacts.
Variable V : Type.
Implicit Types (m : JSMap.t V) (k : string) (v : V).

Lemma get_set k' k v m :
  JSMap.get k' (JSMap.set k v m) = if String.eqb k' k then Some v else JSMap.get k' m.
Proof.
  induction m as [|[k0 v0] rest IH]; simpl.
  - destruct (String.eqb k' k); reflexivity.
  - destruct (String.eqb k k0) eqn:E0; simpl.
    + apply String.eqb_eq in E0; subst k0.
      destruct (String.eqb k' k); reflexivity.
    + rewrite IH.
      destruct (String.eqb k' k0) eqn:E1; [|reflexivity].
      apply String.eqb_eq in E1; subst k0.
      rewrite String.eqb_sym, E0. reflexivity.
Qed.

Lemma get_delete k' k m :
  JSMap.get k' (JSMap.delete k m) = if String.eqb k' k then None else JSMap.get k' m.
Proof.
  unfold JSMap.delete.
  induction m as [|[k0 v0] rest IH]; simpl.
  - destruct (String.eqb k' k); reflexivity.
  - destruct (String.eqb k k0) eqn:E0; simpl.
    + rewrite IH. apply String.eqb_eq in E0; subst k0.
      destruct (String.eqb k' k); reflexivity.
    + rewrite IH.
      destruct (String.eqb k' k0) eqn:E1; [|reflexivity].
      apply String.eqb_eq in E1; subst k0.
      rewrite String.eqb_sym, E0. reflexivity.
Qed.

Lemma has_set k' k v m :
  JSMap.has k' (JSMap.set k v m) = String.eqb k' k || JSMap.has k' m.
Proof.
  unfold JSMap.has. rewrite get_set.
  destruct (String.eqb k' k); reflexivity.
Qed.

Lemma in_set k' v' k v m :
  In (k', v') (JSMap.set k v m) -> (k' = k /\ v' = v) \/ In (k', v') m.
Proof.
  induction m as [|[k0 v0] rest IH]; simpl.
  - intros [H|[]]. inversion H; auto.
  - destruct (String.eqb k k0) eqn:E0; simpl.
    + apply String.eqb_eq in E0; subst k0.
      intros [H|H]; [inversion H; auto | auto].
    + intros [H|H]; [auto|]. destruct (IH H); auto.
Qed.

Lemma in_delete k' v' k m :
  In (k', v') (JSMap.delete k m) -> In (k', v') m /\ k' <> k.
Proof.
  unfold JSMap.delete. rewrite filter_In. simpl.
  intros [H E]. split; [exact H|].
  intros ->. rewrite String.eqb_refl in E. discriminate.
Qed.

Lemma get_in k v m : JSMap.get k m = Some v -> In (k, v) m.
Proof.
  induction m as [|[k0 v0] rest IH]; simpl; [discriminate|].
  destruct (String.eqb k k0) eqn:E0.
  - apply String.eqb_eq in E0; subst k0. intros H; inversion H; auto.
  - auto.
Qed.

Lemma get_none_notin k m : JSMap.get k m = None -> ~ In k (JSMap.keys m).
Proof.
  induction m as [|[k0 v0] rest IH]; simpl; [tauto|].
  destruct (String.eqb k k0) eqn:E0; [discriminate|].
  apply String.eqb_neq in E0. intros H [H1|H1]; [congruence|].
  exact (IH H H1).
Qed.

Lemma in_get k v m : NoDup (JSMap.keys m) -> In (k, v) m -> JSMap.get k m = Some v.
Proof.
  induction m as [|[k0 v0] rest IH]; simpl; [tauto|].
  intros ND [H|H].
  - inversion H; subst. rewrite String.eqb_refl. reflexivity.
  - inversion ND as [|? ? Hnot ND']; subst.
    destruct (String.eqb k k0) eqn:E0.
    + apply String.eqb_eq in E0; subst k0.
      exfalso. apply Hnot. apply (in_map fst) in H. exact H.
    + auto.
Qed.

Lemma keys_set k v m :
  JSMap.keys (JSMap.set k v m)
  = if JSMap.has k m then JSMap.keys m else JSMap.keys m ++ [k].
Proof.
  unfold JSMap.has.
  induction m as [|[k0 v0] rest IH]; simpl; [reflexivity|].
  destruct (String.eqb k k0) eqn:E0; simpl; [reflexivity|].
  fold (JSMap.keys (JSMap.set k v rest)). rewrite IH.
  destruct (JSMap.get k rest); reflexivity.
Qed.

Lemma nodup_keys_set k v m :
  NoDup (JSMap.keys m) -> NoDup (JSMap.keys (JSMap.set k v m)).
Proof.
  intros ND. rewrite keys_set. unfold JSMap.has.
  destruct (JSMap.get k m) eqn:G; [exact ND|].
  apply get_none_notin in G.
  apply NoDup_rev in ND. rewrite <- (rev_involutive (_ ++ _)).
  apply NoDup_rev. rewrite rev_app_distr. simpl.
  constructor; [|exact ND]. rewrite <- in_rev. exact G.
Qed.

Lemma nodup_keys_delete k m :
  NoDup (JSMap.keys m) -> NoDup (JSMap.keys (JSMap.delete k m)).
Proof.
  unfold JSMap.delete, JSMap.keys.
  induction m as [|[k0 v0] rest IH]; simpl; [auto|].
  intros ND. inversion ND as [|? ? Hnot ND']; subst.
  destruct (String.eqb k k0); simpl; [auto|].
  constructor; [|auto].
  intros H. apply Hnot. apply in_map_iff in H. destruct H as [[k1 v1] [E H]].
  apply filter_In in H. destruct H as [H _]. simpl in E; subst.
  apply (in_map fst) in H. exact H.
Qed.

End JSMapFacts.

(* ------------------------------------------------------------------ *)
(** ** The deduplicated presence view *)

Section UniqueView.

Lemma some_session_busy_snoc u seen e :
  some_session_busy u (seen ++ [e])
  = some_session_busy u seen || (String.eqb (username (snd e)) u && isBusy (snd e)).
Proof.
  unfold some_session_busy. rewrite existsb_app. simpl.
  rewrite orb_false_r. reflexivity.
Qed.

Lemma some_session_busy_spec u online :
  some_session_busy u online = true
  <-> exists id user, In (id, user) online /\ username user = u /\ isBusy user = true.
Proof.
  unfold some_session_busy. rewrite existsb_exists. split.
  - intros [[id user] [HIn H]]. simpl in H.
    apply andb_true_iff in H. destruct H as [H1 H2].
    apply String.eqb_eq in H1. exists id, user. auto.
  - intros [id [user [HIn [H1 H2]]]]. exists (id, user). split; [exact HIn|].
    simpl. rewrite H2, andb_true_r. apply String.eqb_eq. exact H1.
Qed.

Lemma unseen_not_busy seen um u :
  unique_inv seen um -> JSMap.has u um = false -> some_session_busy u seen = false.
Proof.
  intros [_ [_ Hcov]] Hno.
  destruct (some_session_busy u seen) eqn:B; [|reflexivity].
  apply some_session_busy_spec in B. destruct B as [id [user [HIn [Hu _]]]].
  specialize (Hcov _ HIn). simpl in Hcov. congruence.
Qed.

Lemma unique_step_inv seen um e :
  unique_inv seen um -> unique_inv (seen ++ [e]) (unique_step um e).
Proof.
  intros Inv. pose proof Inv as [ND [Hget Hcov]].
  unfold unique_step.
  destruct (JSMap.has (username (snd e)) um) eqn:Hhas; simpl.
  - (* the username is already in [uniqueMap] *)
    unfold JSMap.has in Hhas.
    destruct (JSMap.get (username (snd e)) um) as [existing|] eqn:G; [|discriminate].
    destruct (Hget _ _ G) as [Hname Hbusy].
    destruct (isBusy (snd e)) eqn:B.
    + repeat split.
      * apply nodup_keys_set, ND.
      * rewrite get_set in H.
        destruct (String.eqb k (username (snd e))) eqn:E.
        -- apply String.eqb_eq in E. inversion H; subst. simpl. exact Hname.
        -- exact (proj1 (Hget _ _ H)).
      * rewrite get_set in H. rewrite some_session_busy_snoc, B, andb_true_r.
        destruct (String.eqb k (username (snd e))) eqn:E.
        -- apply String.eqb_eq in E. inversion H; subst. simpl.
           rewrite String.eqb_refl, orb_true_r. reflexivity.
        -- rewrite String.eqb_sym, E, orb_false_r. exact (proj2 (Hget _ _ H)).
      * intros e' HIn. rewrite has_set. apply in_app_or in HIn.
        destruct HIn as [HIn|[<-|[]]].
        -- rewrite (Hcov _ HIn). apply orb_true_r.
        -- rewrite String.eqb_refl. reflexivity.
    + repeat split.
      * exact ND.
      * exact (proj1 (Hget _ _ H)).
      * rewrite some_session_busy_snoc, B, andb_false_r, orb_false_r.
        exact (proj2 (Hget _ _ H)).
      * intros e' HIn. apply in_app_or in HIn.
        destruct HIn as [HIn|[<-|[]]]; [exact (Hcov _ HIn)|].
        unfold JSMap.has. rewrite G. reflexivity.
  - (* first session of this username *)
    pose proof (unseen_not_busy _ _ _ Inv Hhas) as Hfresh.
    repeat split.
    + apply nodup_keys_set, ND.
    + rewrite get_set in H.
      destruct (String.eqb k (username (snd e))) eqn:E.
      * apply String.eqb_eq in E. inversion H; subst. reflexivity.
      * exact (proj1 (Hget _ _ H)).
    + rewrite get_set in H. rewrite some_session_busy_snoc.
      destruct (String.eqb k (username (snd e))) eqn:E.
      * apply String.eqb_eq in E. inversion H; subst.
        rewrite Hfresh, String.eqb_refl. reflexivity.
      * rewrite String.eqb_sym, E, orb_false_r. exact (proj2 (Hget _ _ H)).
    + intros e' HIn. rewrite has_set. apply in_app_or in HIn.
      destruct HIn as [HIn|[<-|[]]].
      * rewrite (Hcov _ HIn). apply orb_true_r.
      * rewrite String.eqb_refl. reflexivity.
Qed.

Lemma unique_fold_inv l : forall seen um,
  unique_inv seen um -> unique_inv (seen ++ l) (fold_left unique_step l um).
Proof.
  induction l as [|e rest IH]; intros seen um Inv; simpl.
  - rewrite app_nil_r. exact Inv.
  - replace (seen ++ e :: rest) with ((seen ++ [e]) ++ rest)
      by (rewrite <- app_assoc; reflexivity).
    apply IH, unique_step_inv, Inv.
Qed.

Lemma unique_inv_final online :
  unique_inv online (fold_left unique_step online JSMap.empty).
Proof.
  apply (unique_fold_inv online [] JSMap.empty).
  repeat split.
  - constructor.
  - discriminate.
  - discriminate.
  - intros e [].
Qed.

Lemma view_entry online e :
  In e (getUniqueOnlineUsers online) ->
  JSMap.get (username e) (fold_left unique_step online JSMap.empty) = Some e.
Proof.
  intros HIn. destruct (unique_inv_final online) as [ND [Hget _]].
  unfold getUniqueOnlineUsers, JSMap.values in HIn.
  apply in_map_iff in HIn. destruct HIn as [[k u] [E HIn]]. simpl in E; subst u.
  pose proof (in_get _ _ _ _ ND HIn) as G.
  destruct (Hget _ _ G) as [-> _]. exact G.
Qed.

Lemma view_usernames online :
  map username (getUniqueOnlineUsers online)
  = JSMap.keys (fold_left unique_step online JSMap.empty).
Proof.
  destruct (unique_inv_final online) as [ND [Hget _]].
  unfold getUniqueOnlineUsers, JSMap.values, JSMap.keys.
  rewrite map_map. apply map_ext_in. intros [k u] HIn. simpl.
  exact (proj1 (Hget _ _ (in_get _ _ _ _ ND HIn))).
Qed.

Lemma view_busy online e :
  In e (getUniqueOnlineUsers online) ->
  isBusy e = some_session_busy (username e) online.
Proof.
  intros HIn. destruct (unique_inv_final online) as [_ [Hget _]].
  exact (proj2 (Hget _ _ (view_entry _ _ HIn))).
Qed.

(** Every live session's username has its entry in the view. *)
Lemma view_covers online id user :
  In (id, user) online ->
  exists e, In e (getUniqueOnlineUsers online) /\ username e = username user.
Proof.
  intros HIn. destruct (unique_inv_final online) as [_ [Hget Hcov]].
  specialize (Hcov _ HIn). simpl in Hcov. unfold JSMap.has in Hcov.
  destruct (JSMap.get (username user) _) as [e|] eqn:G; [|discriminate].
  exists e. split.
  - unfold getUniqueOnlineUsers, JSMap.values.
    apply in_map_iff. exists (username user, e). split; [reflexivity|].
    apply get_in, G.
  - exact (proj1 (Hget _ _ G)).
Qed.

End UniqueView.

(** C3. For every registry state, the view returned by
    [getUniqueOnlineUsers] holds no two entries with the same username, and
    the [isBusy] of an entry is true exactly when some session stored in
    [onlineUsers] under that username has [isBusy] true. *)
Theorem snapshot_deduplicated (st : State) :
  NoDup (map username (getUniqueOnlineUsers (onlineUsers st)))
  /\ forall e, In e (getUniqueOnlineUsers (onlineUsers st)) ->
       (isBusy e = true
        <-> exists id user, In (id, user) (onlineUsers st)
                            /\ username user = username e /\ isBusy user = true).
Proof.
  split.
  - rewrite view_usernames.
    exact (proj1 (unique_inv_final (onlineUsers st))).
  - intros e HIn. rewrite (view_busy _ _ HIn).
    apply some_session_busy_spec.
Qed.

(** Witness of C3: alice holds two sessions and the second one joins a room;
    the view has one entry for her, taken from the first session and marked
    busy because of the second. *)
Lemma snapshot_deduplicated_witness :
  exists st,
    run [EvRegister alice1 VNull; EvRegister alice2 VNull; EvRegister bob VNull;
         EvJoin alice2 (VObj [("room", VStr "r1")])] initial = Ok st
    /\ getUniqueOnlineUsers (onlineUsers st)
       = [mkUser "alice" true VNull VNull; mkUser "bob" false VNull VNull]
    /\ exists id user, In (id, user) (onlineUsers st)
                       /\ username user = "alice" /\ isBusy user = true.
Proof.
  eexists. split; [reflexivity|]. split; [reflexivity|].
  match goal with
  | |- exists id user, In _ (onlineUsers ?st) /\ _ =>
      apply (proj1 (proj2 (snapshot_deduplicated st)
                      (mkUser "alice" true VNull VNull) (or_introl eq_refl)))
  end.
  reflexivity.
Defined.

(* ------------------------------------------------------------------ *)
(** ** Reading the payload *)

Lemma get_prop_ok data k :
  is_nullish data = false -> get_prop data k = Ok (field data k).
Proof.
  unfold field. destruct data; simpl; try discriminate; try reflexivity.
  intros _. destruct (JSMap.get k fields); reflexivity.
Qed.

Lemma get_prop_throw data k :
  is_nullish data = true -> exists x, get_prop data k = Throw x.
Proof.
  destruct data; simpl; try discriminate; intros _; eexists; reflexivity.
Qed.

Lemma get_prop_inv data k v :
  get_prop data k = Ok v -> is_nullish data = false /\ v = field data k.
Proof.
  intros H. destruct (is_nullish data) eqn:N.
  - destruct (get_prop_throw data k N) as [x Hx]. congruence.
  - rewrite (get_prop_ok data k N) in H. inversion H. auto.
Qed.

Ltac read_payload data :=
  let N := fresh "N" in
  destruct (is_nullish data) eqn:N;
  [ let x := fresh "x" in let Hx := fresh "Hx" in
    match goal with
    | H : context [get_prop data ?k] |- _ =>
        destruct (get_prop_throw data k N) as [x Hx];
        rewrite Hx in H; simpl in H; discriminate
    end
  | repeat match goal with
    | H : context [get_prop data ?k] |- _ =>
        rewrite (get_prop_ok data k N) in H; simpl in H
    end ].

(* ------------------------------------------------------------------ *)
(** ** Steps and runs *)

Lemma step_state e st st' effs :
  step e st = Ok (st', effs) -> st' = registry_effect e st.
Proof.
  destruct e; simpl;
    unfold on_connection, on_initiate_call, on_join, on_chat_message,
           on_private_chat, on_disconnect, on_offer, on_answer, on_ice;
    intros H.
  - inversion H; reflexivity.
  - read_payload data.
    destruct (falsy_id _); inversion H; reflexivity.
  - read_payload data. inversion H; reflexivity.
  - read_payload data. inversion H; reflexivity.
  - read_payload data. inversion H; reflexivity.
  - inversion H; reflexivity.
  - read_payload d. inversion H; reflexivity.
  - read_payload d. inversion H; reflexivity.
  - read_payload d. inversion H; reflexivity.
Qed.

Lemma run_cons e rest st st'' :
  run (e :: rest) st = Ok st'' ->
  exists effs, step e st = Ok (registry_effect e st, effs)
               /\ run rest (registry_effect e st) = Ok st''.
Proof.
  simpl. destruct (step e st) as [[st' effs]|x] eqn:S; [|discriminate].
  intros H. rewrite <- (step_state _ _ _ _ S). eauto.
Qed.

Lemma run_app a : forall b st st'',
  run (a ++ b) st = Ok st'' ->
  exists st', run a st = Ok st' /\ run b st' = Ok st''.
Proof.
  induction a as [|e a IH]; intros b st st'' H.
  - exists st. auto.
  - rewrite <- app_comm_cons in H.
    destruct (run_cons _ _ _ _ H) as [effs [S R]].
    destruct (IH _ _ _ R) as [st' [R1 R2]].
    exists st'. split; [|exact R2]. simpl. rewrite S. exact R1.
Qed.

(* ------------------------------------------------------------------ *)
(** ** Routes *)

Lemma markBusy_routes id room st :
  userSocketMap (markBusy id room st) = userSocketMap st.
Proof.
  unfold markBusy. destruct (JSMap.get id (onlineUsers st)); reflexivity.
Qed.

Lemma route_after e st u :
  JSMap.get u (userSocketMap (registry_effect e st))
  = match e with
    | EvRegister s _ =>
        if String.eqb u (sock_username s) then Some (sock_id s)
        else JSMap.get u (userSocketMap st)
    | EvDisconnect s =>
        if String.eqb u (sock_username s) then None
        else JSMap.get u (userSocketMap st)
    | _ => JSMap.get u (userSocketMap st)
    end.
Proof.
  destruct e; simpl; try reflexivity.
  - apply get_set.
  - rewrite markBusy_routes. reflexivity.
  - apply get_delete.
Qed.

Lemma route_unwritten e st u :
  writes_route u e = false ->
  JSMap.get u (userSocketMap (registry_effect e st)) = JSMap.get u (userSocketMap st).
Proof.
  intros W. rewrite route_after.
  destruct e; simpl in W; try reflexivity;
    rewrite String.eqb_sym, W; reflexivity.
Qed.

Lemma route_stable tr : forall st0 st u,
  run tr st0 = Ok st ->
  forallb (fun e => negb (writes_route u e)) tr = true ->
  JSMap.get u (userSocketMap st) = JSMap.get u (userSocketMap st0).
Proof.
  induction tr as [|e rest IH]; intros st0 st u R Q.
  - simpl in R. inversion R. reflexivity.
  - simpl in Q. apply andb_true_iff in Q. destruct Q as [Q1 Q2].
    apply negb_true_iff in Q1.
    destruct (run_cons _ _ _ _ R) as [effs [_ R']].
    rewrite (IH _ _ _ R' Q2). apply route_unwritten, Q1.
Qed.

Lemma route_origin tr : forall st0 st u c,
  run tr st0 = Ok st ->
  JSMap.get u (userSocketMap st) = Some c ->
  last_registered u tr = Some c
  \/ (last_registered u tr = None /\ JSMap.get u (userSocketMap st0) = Some c).
Proof.
  induction tr as [|e rest IH]; intros st0 st u c R G.
  - simpl in R. inversion R; subst. right. auto.
  - destruct (run_cons _ _ _ _ R) as [effs [_ R']].
    destruct (IH _ _ _ _ R' G) as [L|[L G']]; simpl; rewrite L; [left; reflexivity|].
    rewrite route_after in G'.
    destruct e; auto.
    + rewrite (String.eqb_sym (sock_username s) u).
      destruct (String.eqb u (sock_username s)); auto.
    + destruct (String.eqb u (sock_username s)); [discriminate|auto].
Qed.

(** C1. Last writer wins.  (1) After the registration of socket [c1] for
    username [u] followed by the registration of socket [c2] for [u], the
    route of [u] is [c2], from every registry state.  (2) The route stays
    [c2] through every further run in which no socket of [u] registers or
    disconnects.  (3) In every state reached from the empty registry, a route
    stored for [u] is the socket whose registration for [u] came last. *)
Theorem last_writer_wins :
  (forall st u c1 c2 uid1 uid2 av1 av2,
     routeTo (register (mkSocket c2 u uid2) av2
                (register (mkSocket c1 u uid1) av1 st)) (VStr u) = Some c2)
  /\ (forall st s av post st',
        run (EvRegister s av :: post) st = Ok st' ->
        forallb (fun e => negb (writes_route (sock_username s) e)) post = true ->
        routeTo st' (VStr (sock_username s)) = Some (sock_id s))
  /\ (forall tr st u c,
        run tr initial = Ok st ->
        routeTo st (VStr u) = Some c ->
        last_registered u tr = Some c).
Proof.
  repeat split.
  - intros. simpl. rewrite get_set, String.eqb_refl. reflexivity.
  - intros st s av post st' R Q.
    destruct (run_cons _ _ _ _ R) as [effs [_ R']]. simpl.
    rewrite (route_stable _ _ _ _ R' Q). simpl.
    rewrite get_set, String.eqb_refl. reflexivity.
  - intros tr st u c R G. simpl in G.
    destruct (route_origin _ _ _ _ _ R G) as [L|[_ G0]]; [exact L|].
    simpl in G0. discriminate.
Qed.

(** Witness of C1: alice registers on [c1], then on [c2]; bob joins a room
    and sends her a message; her route is [c2], the last registration. *)
Lemma last_writer_wins_witness :
  routeTo (register alice2 VNull (register alice1 VNull initial)) (VStr "alice")
  = Some "c2"
  /\ (exists st',
        run [EvRegister alice2 VNull; EvRegister bob VNull;
             EvJoin bob (VObj [("room", VStr "r1")]);
             EvPrivateChat bob (chat_payload "alice") "10:00" "10:00"]
            (register alice1 VNull initial) = Ok st'
        /\ routeTo st' (VStr "alice") = Some "c2")
  /\ last_registered "alice"
       [EvRegister alice1 VNull; EvRegister alice2 VNull; EvRegister bob VNull]
     = Some "c2".
Proof.
  destruct last_writer_wins as [W1 [W2 W3]].
  split; [|split].
  - exact (W1 initial "alice" "c1" "c2" 1%Z 1%Z VNull VNull).
  - eexists. split; [reflexivity|].
    apply (W2 (register alice1 VNull initial) alice2 VNull
              [EvRegister bob VNull; EvJoin bob (VObj [("room", VStr "r1")]);
               EvPrivateChat bob (chat_payload "alice") "10:00" "10:00"]);
      reflexivity.
  - apply (W3 _ (register bob VNull
                   (register alice2 VNull (register alice1 VNull initial)))).
    + reflexivity.
    + reflexivity.
Defined.

(* ------------------------------------------------------------------ *)
(** ** The registry invariant *)

Lemma session_after_register s av st c :
  JSMap.get c (onlineUsers (register s av st))
  = if String.eqb c (sock_id s) then Some (mkUser (sock_username s) false VNull av)
    else JSMap.get c (onlineUsers st).
Proof. apply get_set. Qed.

Lemma session_after_markBusy id room st c :
  JSMap.get c (onlineUsers (markBusy id room st))
  = match JSMap.get c (onlineUsers st) with
    | Some user =>
        if String.eqb c id then Some (set_currentRoom room (set_isBusy true user))
        else Some user
    | None => None
    end.
Proof.
  unfold markBusy.
  destruct (JSMap.get id (onlineUsers st)) as [user|] eqn:G; simpl.
  - rewrite get_set. destruct (String.eqb c id) eqn:E.
    + apply String.eqb_eq in E; subst c. rewrite G. reflexivity.
    + destruct (JSMap.get c (onlineUsers st)); reflexivity.
  - destruct (JSMap.get c (onlineUsers st)) eqn:G'; [|reflexivity].
    destruct (String.eqb c id) eqn:E; [|reflexivity].
    apply String.eqb_eq in E; subst c. congruence.
Qed.

Lemma session_after_unregister s st c :
  JSMap.get c (onlineUsers (unregister s st))
  = if String.eqb c (sock_id s) then None else JSMap.get c (onlineUsers st).
Proof. apply get_delete. Qed.

Lemma registry_inv_initial socks : registry_inv socks initial.
Proof.
  split.
  - intros u c [].
  - intros c user H. discriminate.
Qed.

Lemma registry_inv_effect socks e st :
  sockets_consistent socks ->
  In (event_socket e) socks ->
  registry_inv socks st ->
  registry_inv socks (registry_effect e st).
Proof.
  intros Cons HIn [Hroute Hsess].
  destruct e; simpl in *; try (split; assumption).
  - (* the avatar callback *)
    split.
    + intros u c H. rewrite session_after_register.
      apply in_set in H. destruct H as [[-> ->]|H].
      * rewrite String.eqb_refl. eexists; split; reflexivity.
      * destruct (Hroute _ _ H) as [user [G Hu]].
        destruct (String.eqb c (sock_id s)) eqn:E; [|eauto].
        apply String.eqb_eq in E; subst c.
        destruct (Hsess _ _ G) as [s' [HIn' [Hid Hname]]].
        eexists; split; [reflexivity|]. simpl.
        rewrite <- Hu, <- Hname. symmetry. apply Cons; assumption.
    + intros c user. rewrite session_after_register.
      destruct (String.eqb c (sock_id s)) eqn:E; [|apply Hsess].
      apply String.eqb_eq in E; subst c.
      intros H; inversion H; subst. exists s. auto.
  - (* join *)
    split.
    + intros u c. rewrite markBusy_routes. intros H.
      destruct (Hroute _ _ H) as [user [G Hu]].
      rewrite session_after_markBusy, G.
      destruct (String.eqb c (sock_id s)); eexists; split; try reflexivity; exact Hu.
    + intros c user. rewrite session_after_markBusy.
      destruct (JSMap.get c (onlineUsers st)) as [old|] eqn:G; [|discriminate].
      destruct (Hsess _ _ G) as [s' [HIn' [Hid Hname]]].
      destruct (String.eqb c (sock_id s)); intros H; inversion H; subst;
        exists s'; auto.
  - (* disconnect *)
    split.
    + intros u c H. apply in_delete in H. destruct H as [H Hne].
      destruct (Hroute _ _ H) as [user [G Hu]].
      rewrite session_after_unregister.
      destruct (String.eqb c (sock_id s)) eqn:E; [|eauto].
      apply String.eqb_eq in E; subst c.
      destruct (Hsess _ _ G) as [s' [HIn' [Hid Hname]]].
      exfalso. apply Hne. rewrite <- Hu, <- Hname. apply Cons; assumption.
    + intros c user. rewrite session_after_unregister.
      destruct (String.eqb c (sock_id s)); [discriminate|apply Hsess].
Qed.

Lemma registry_inv_run socks tr : forall st0 st,
  sockets_consistent socks ->
  (forall e, In e tr -> In (event_socket e) socks) ->
  registry_inv socks st0 ->
  run tr st0 = Ok st ->
  registry_inv socks st.
Proof.
  induction tr as [|e rest IH]; intros st0 st Cons Sub Inv R.
  - simpl in R. inversion R; subst. exact Inv.
  - destruct (run_cons _ _ _ _ R) as [effs [_ R']].
    apply (IH _ _ Cons) in R'; [exact R'| |].
    + intros e' H. apply Sub. right. exact H.
    + apply registry_inv_effect; [exact Cons| |exact Inv].
      apply Sub. left. reflexivity.
Qed.

(** C6. In every state reached from the empty registry by a run of
    registrations, joins, disconnects and the other events, in which a socket
    id stands for one socket (hence one username), every socket id stored as a
    value in [userSocketMap] is a key of [onlineUsers]. *)
Theorem registry_invariant (tr : list Event) (st : State) :
  sockets_consistent (map event_socket tr) ->
  run tr initial = Ok st ->
  routes_live st = true.
Proof.
  intros Cons R.
  assert (Inv : registry_inv (map event_socket tr) st).
  { apply (registry_inv_run _ tr initial st Cons).
    - intros e H. apply in_map, H.
    - apply registry_inv_initial.
    - exact R. }
  unfold routes_live. apply forallb_forall. intros [u c] H.
  destruct (proj1 Inv u c H) as [user [G _]].
  simpl. unfold JSMap.has. rewrite G. reflexivity.
Qed.

Lemma sample_sockets_consistent :
  sockets_consistent [alice1; alice2; bob; bob; alice1].
Proof.
  intros s1 s2 H1 H2.
  simpl in H1, H2.
  repeat match goal with
         | H : _ \/ _ |- _ => destruct H as [H|H]
         | H : False |- _ => destruct H
         end; subst; simpl; intros E; try reflexivity; discriminate.
Defined.

(** Witness of C6: alice holds two sessions, bob registers and joins a room,
    alice closes her older session; the one route left, bob's, leads to a
    stored session. *)
Lemma registry_invariant_witness :
  exists st,
    run [EvRegister alice1 VNull; EvRegister alice2 VNull; EvRegister bob VNull;
         EvJoin bob (VObj [("room", VStr "r1")]); EvDisconnect alice1] initial
    = Ok st
    /\ userSocketMap st = [("bob", "c3")]
    /\ JSMap.keys (onlineUsers st) = ["c2"; "c3"]
    /\ routes_live st = true.
Proof.
  eexists. split; [reflexivity|]. split; [reflexivity|]. split; [reflexivity|].
  apply (registry_invariant
           [EvRegister alice1 VNull; EvRegister alice2 VNull; EvRegister bob VNull;
            EvJoin bob (VObj [("room", VStr "r1")]); EvDisconnect alice1]).
  - exact sample_sockets_consistent.
  - reflexivity.
Defined.

(* ------------------------------------------------------------------ *)
(** ** Disconnect and the route *)

(** C2, on the code.  The ["disconnect"] handler deletes the route of the
    socket's username whatever it points at.  With alice on [c1] and then on
    [c2], the disconnect of the older [c1] deletes the route that pointed at
    [c2]: the session [c2] stays in [onlineUsers] and alice stays in the
    presence view, while a call to her is answered as offline. *)
Theorem stale_disconnect_drops_route :
  (forall s st, routeTo (unregister s st) (VStr (sock_username s)) = None)
  /\ exists before after,
       run [EvRegister alice1 VNull; EvRegister alice2 VNull] initial = Ok before
       /\ routeTo before (VStr "alice") = Some "c2"
       /\ step (EvDisconnect alice1) before = Ok (after, [update_user_list after])
       /\ routeTo after (VStr "alice") = None
       /\ JSMap.keys (onlineUsers after) = ["c2"]
       /\ map username (getUniqueOnlineUsers (onlineUsers after)) = ["alice"]
       /\ on_initiate_call bob (call_payload "alice") after
          = Ok (after, [Emit ToSender "call-rejected"
                             (VObj [("from", VStr "System");
                                    ("reason", VStr "offline")])]).
Proof.
  split.
  - intros s st. simpl. rewrite get_delete, String.eqb_refl. reflexivity.
  - eexists. eexists.
    split; [reflexivity|]. split; [reflexivity|]. split; [reflexivity|].
    repeat split.
Qed.

(* ------------------------------------------------------------------ *)
(** ** Busy sessions stay busy *)

Lemma session_step e st c u :
  JSMap.get c (onlineUsers st) = Some u ->
  opens_or_closes c e = false ->
  exists u', JSMap.get c (onlineUsers (registry_effect e st)) = Some u'
             /\ username u' = username u
             /\ ((isBusy u' = isBusy u /\ currentRoom u' = currentRoom u)
                 \/ exists s data,
                      e = EvJoin s data /\ sock_id s = c
                      /\ isBusy u' = true /\ currentRoom u' = field data "room").
Proof.
  intros G Q.
  destruct e; cbn [registry_effect opens_or_closes] in *;
    try solve [exists u; auto].
  - rewrite session_after_register, String.eqb_sym, Q. exists u. auto.
  - rewrite session_after_markBusy, G.
    destruct (String.eqb c (sock_id s)) eqn:E.
    + apply String.eqb_eq in E; subst c.
      eexists. split; [reflexivity|]. split; [reflexivity|].
      right. exists s, data. auto.
    + exists u. auto.
  - rewrite session_after_unregister, String.eqb_sym, Q. exists u. auto.
Qed.

Lemma session_run tr : forall st0 st c u,
  run tr st0 = Ok st ->
  JSMap.get c (onlineUsers st0) = Some u ->
  isBusy u = true ->
  forallb (fun e => negb (opens_or_closes c e)) tr = true ->
  exists u', JSMap.get c (onlineUsers st) = Some u'
             /\ username u' = username u /\ isBusy u' = true.
Proof.
  induction tr as [|e rest IH]; intros st0 st c u R G B Q.
  - simpl in R. inversion R; subst. exists u. auto.
  - simpl in Q. apply andb_true_iff in Q. destruct Q as [Q1 Q2].
    apply negb_true_iff in Q1.
    destruct (run_cons _ _ _ _ R) as [effs [_ R']].
    destruct (session_step e st0 c u G Q1) as [u1 [G1 [N1 F1]]].
    assert (B1 : isBusy u1 = true).
    { destruct F1 as [[F1 _]|[s [data [_ [_ [F1 _]]]]]]; congruence. }
    destruct (IH _ _ _ _ R' G1 B1 Q2) as [u' [G' [N' B']]].
    exists u'. repeat split; congruence.
Qed.

Lemma registered_ids_app a b :
  registered_ids (a ++ b) = registered_ids a ++ registered_ids b.
Proof.
  induction a as [|e a IH]; simpl; [reflexivity|].
  destruct e; simpl; rewrite IH; reflexivity.
Qed.

Lemma registered_ids_cons c e rest :
  In c (registered_ids rest) -> In c (registered_ids (e :: rest)).
Proof. destruct e; simpl; auto. Qed.

Lemma session_origin tr : forall st0 st c u,
  run tr st0 = Ok st ->
  JSMap.get c (onlineUsers st) = Some u ->
  In c (registered_ids tr) \/ JSMap.get c (onlineUsers st0) <> None.
Proof.
  induction tr as [|e rest IH]; intros st0 st c u R G.
  - simpl in R. inversion R; subst. right. congruence.
  - destruct (run_cons _ _ _ _ R) as [effs [_ R']].
    destruct (IH _ _ _ _ R' G) as [H|H].
    + left. apply registered_ids_cons, H.
    + destruct e; cbn [registry_effect] in H; auto.
      * rewrite session_after_register in H.
        destruct (String.eqb c (sock_id s)) eqn:E; [|auto].
        apply String.eqb_eq in E. left. simpl. auto.
      * rewrite session_after_markBusy in H. right.
        destruct (JSMap.get c (onlineUsers st0)); congruence.
      * rewrite session_after_unregister in H. right.
        destruct (String.eqb c (sock_id s)); congruence.
Qed.

Lemma nodup_app_disjoint (a b : list string) x :
  NoDup (a ++ b) -> In x a -> ~ In x b.
Proof.
  induction a as [|y a IH]; simpl; [tauto|].
  intros ND [->|H] Hb.
  - inversion ND as [|? ? Hnot _]; subst. apply Hnot, in_or_app. auto.
  - inversion ND; subst. exact (IH ltac:(assumption) H Hb).
Qed.

Lemma session_untouched c tr :
  ~ In c (registered_ids tr) ->
  disconnects c tr = false ->
  forallb (fun e => negb (opens_or_closes c e)) tr = true.
Proof.
  induction tr as [|e rest IH]; intros Hr Hd; [reflexivity|].
  simpl in Hd. apply orb_false_iff in Hd. destruct Hd as [Hd1 Hd2].
  simpl. apply andb_true_iff. split.
  - apply negb_true_iff. destruct e; simpl in *; auto.
    apply String.eqb_neq. intros E. apply Hr. auto.
  - apply IH; [|exact Hd2].
    intros H. apply Hr, registered_ids_cons, H.
Qed.

Lemma session_run_room tr : forall st0 st c u,
  run tr st0 = Ok st ->
  JSMap.get c (onlineUsers st0) = Some u ->
  is_nullish (currentRoom u) = false ->
  forallb (fun e => negb (opens_or_closes c e)) tr = true ->
  joins_name_room c tr = true ->
  exists u', JSMap.get c (onlineUsers st) = Some u'
             /\ is_nullish (currentRoom u') = false.
Proof.
  induction tr as [|e rest IH]; intros st0 st c u R G B Q J.
  - simpl in R. inversion R; subst. exists u. auto.
  - simpl in Q. apply andb_true_iff in Q. destruct Q as [Q1 Q2].
    apply negb_true_iff in Q1.
    unfold joins_name_room in J. simpl in J.
    apply andb_true_iff in J. destruct J as [J1 J2].
    destruct (run_cons _ _ _ _ R) as [effs [_ R']].
    destruct (session_step e st0 c u G Q1) as [u1 [G1 [_ F1]]].
    assert (B1 : is_nullish (currentRoom u1) = false).
    { destruct F1 as [[_ F1]|[s [data [E [Hc [_ F1]]]]]]; [congruence|].
      subst e. rewrite Hc, String.eqb_refl in J1.
      apply negb_true_iff in J1. congruence. }
    exact (IH _ _ _ _ R' G1 B1 Q2 J2).
Qed.

(** C10 as stated fails in its clause on [currentRoom].  Bob registers and
    joins room [r1]; a second join of the same socket whose payload has
    [room] null writes that null into [currentRoom] while the session lives
    and stays busy. *)
Lemma join_without_room_clears_room :
  run [EvRegister bob VNull; EvJoin bob (VObj [("room", VStr "r1")])] initial
  = Ok (mkState [("c3", mkUser "bob" true (VStr "r1") VNull)] [("bob", "c3")])
  /\ run [EvRegister bob VNull; EvJoin bob (VObj [("room", VStr "r1")]);
           EvJoin bob (VObj [("room", VNull)])] initial
     = Ok (mkState [("c3", mkUser "bob" true VNull VNull)] [("bob", "c3")]).
Proof. split; reflexivity. Qed.

(** C10, amended.  (1) Registration stores the session with [isBusy] false
    and [currentRoom] null.  (2) A step that is neither the registration nor
    the disconnect of a stored session's socket keeps the session and its
    username, and either leaves its [isBusy] and [currentRoom] as they were
    or is that socket's own join, which sets [isBusy] to true and
    [currentRoom] to the payload's room: nothing resets [isBusy], and only
    the session's own join writes [currentRoom].  (3) In a run from the empty
    registry in which every socket id registers at most once, a stored
    session that joins is busy, and its username is reported busy by the
    presence view, in every later state before its disconnect; and its
    [currentRoom] is not cleared as long as each of its joins carries a
    room. *)
Theorem busy_monotone :
  (forall s av st,
     JSMap.get (sock_id s) (onlineUsers (register s av st))
     = Some (mkUser (sock_username s) false VNull av))
  /\ (forall e st st' effs c u,
        step e st = Ok (st', effs) ->
        JSMap.get c (onlineUsers st) = Some u ->
        opens_or_closes c e = false ->
        exists u', JSMap.get c (onlineUsers st') = Some u'
                   /\ username u' = username u
                   /\ ((isBusy u' = isBusy u /\ currentRoom u' = currentRoom u)
                       \/ exists s data,
                            e = EvJoin s data /\ sock_id s = c
                            /\ isBusy u' = true
                            /\ currentRoom u' = field data "room"))
  /\ (forall pre s data post st1 st user,
        run pre initial = Ok st1 ->
        JSMap.get (sock_id s) (onlineUsers st1) = Some user ->
        run (pre ++ EvJoin s data :: post) initial = Ok st ->
        NoDup (registered_ids (pre ++ EvJoin s data :: post)) ->
        disconnects (sock_id s) post = false ->
        (exists user', JSMap.get (sock_id s) (onlineUsers st) = Some user'
                       /\ username user' = username user /\ isBusy user' = true
                       /\ (joins_name_room (sock_id s) (EvJoin s data :: post) = true ->
                           is_nullish (currentRoom user') = false))
        /\ exists e, In e (getUniqueOnlineUsers (onlineUsers st))
                     /\ username e = username user /\ isBusy e = true).
Proof.
  split; [|split].
  - intros s av st. rewrite session_after_register, String.eqb_refl. reflexivity.
  - intros e st st' effs c u S G Q.
    rewrite (step_state _ _ _ _ S). apply session_step; assumption.
  - intros pre s data post st1 st user R1 G1 R ND Hd.
    destruct (run_app _ _ _ _ R) as [st1' [R1' R2]].
    assert (st1' = st1) by congruence. subst st1'.
    destruct (run_cons _ _ _ _ R2) as [effs [_ Rpost]].
    cbn [registry_effect] in Rpost.
    set (st2 := markBusy (sock_id s) (field data "room") st1) in *.
    assert (G2 : JSMap.get (sock_id s) (onlineUsers st2)
                 = Some (set_currentRoom (field data "room") (set_isBusy true user))).
    { unfold st2. rewrite session_after_markBusy, G1, String.eqb_refl. reflexivity. }
    assert (Hreg : In (sock_id s) (registered_ids pre)).
    { destruct (session_origin _ _ _ _ _ R1 G1) as [H|H]; [exact H|].
      exfalso. apply H. reflexivity. }
    assert (Hnot : ~ In (sock_id s) (registered_ids post)).
    { rewrite registered_ids_app in ND. simpl in ND.
      exact (nodup_app_disjoint _ _ _ ND Hreg). }
    pose proof (session_untouched _ _ Hnot Hd) as Hkeep.
    destruct (session_run _ _ _ _ _ Rpost G2 eq_refl Hkeep)
      as [user' [G' [N' B']]].
    simpl in N'.
    split.
    + exists user'. repeat split; auto.
      intros J. unfold joins_name_room in J. simpl in J.
      rewrite String.eqb_refl in J.
      apply andb_true_iff in J. destruct J as [J1 J2].
      apply negb_true_iff in J1.
      destruct (session_run_room _ _ _ _ _ Rpost G2 J1 Hkeep J2)
        as [user'' [G'' B'']].
      congruence.
    + destruct (view_covers _ _ _ (get_in _ _ _ _ G')) as [e [HIn He]].
      exists e. split; [exact HIn|]. split; [congruence|].
      rewrite (view_busy _ _ HIn).
      apply some_session_busy_spec. exists (sock_id s), user'.
      split; [apply get_in, G'|]. auto.
Qed.

(** Witness of C10: bob registers and joins room [r1]; alice registers, calls
    him, then registers a second session and closes the first; bob is busy in
    the view throughout and his session keeps a room. *)
Lemma busy_monotone_witness :
  (exists u', JSMap.get "c3" (onlineUsers (registry_effect
                  (EvInitiateCall alice1 (call_payload "bob"))
                  (markBusy "c3" (VStr "r1") (register bob VNull initial))))
              = Some u'
              /\ username u' = "bob" /\ isBusy u' = true)
  /\ exists st,
       run ([EvRegister bob VNull]
              ++ EvJoin bob (VObj [("room", VStr "r1")])
              :: [EvRegister alice1 VNull;
                  EvInitiateCall alice1 (call_payload "bob");
                  EvRegister alice2 VNull; EvDisconnect alice1]) initial = Ok st
       /\ (exists u', JSMap.get "c3" (onlineUsers st) = Some u'
                      /\ isBusy u' = true
                      /\ is_nullish (currentRoom u') = false)
       /\ exists e, In e (getUniqueOnlineUsers (onlineUsers st))
                    /\ username e = "bob" /\ isBusy e = true.
Proof.
  destruct busy_monotone as [_ [W2 W3]].
  split.
  - destruct (W2 (EvInitiateCall alice1 (call_payload "bob"))
                 (markBusy "c3" (VStr "r1") (register bob VNull initial))
                 _ _ "c3" (mkUser "bob" true (VStr "r1") VNull)
                 eq_refl eq_refl eq_refl)
      as [u' [G [N [[B _]|[s [data [E _]]]]]]].
    + exists u'. simpl in *. auto.
    + discriminate.
  - eexists.
    destruct (W3 [EvRegister bob VNull] bob (VObj [("room", VStr "r1")])
                 [EvRegister alice1 VNull;
                  EvInitiateCall alice1 (call_payload "bob");
                  EvRegister alice2 VNull; EvDisconnect alice1]
                 _ _ (mkUser "bob" false VNull VNull)
                 eq_refl eq_refl eq_refl)
      as [[u' [G [_ [B Rm]]]] [e [HIn [N Be]]]].
    + simpl. repeat constructor; simpl; intuition discriminate.
    + reflexivity.
    + split; [reflexivity|]. split.
      * exists u'. split; [exact G|]. split; [exact B|]. apply Rm. reflexivity.
      * exists e. auto.
Defined.

(* ------------------------------------------------------------------ *)
(** ** Delivery *)

Lemma filter_one (t : string) (l : list string) :
  NoDup l -> In t l -> filter (fun id => String.eqb id t) l = [t].
Proof.
  induction l as [|x l IH]; simpl; [tauto|].
  intros ND HIn. inversion ND as [|? ? Hnot ND']; subst.
  destruct (String.eqb x t) eqn:E.
  - apply String.eqb_eq in E; subst x. f_equal.
    clear IH HIn ND ND'. induction l as [|y l IH]; [reflexivity|].
    simpl. destruct (String.eqb y t) eqn:E.
    + apply String.eqb_eq in E; subst y. exfalso. apply Hnot. left. reflexivity.
    + apply IH. intros H. apply Hnot. right. exact H.
  - destruct HIn as [->|HIn]; [rewrite String.eqb_refl in E; discriminate|].
    apply IH; assumption.
Qed.

Lemma filter_none (t : string) (l : list string) :
  ~ In t l -> filter (fun id => String.eqb id t) l = [].
Proof.
  induction l as [|x l IH]; simpl; [reflexivity|].
  intros Hnot. destruct (String.eqb x t) eqn:E.
  - apply String.eqb_eq in E. exfalso. apply Hnot. auto.
  - apply IH. intros H. apply Hnot. auto.
Qed.

Lemma received_emit t ev payload (l : list string) :
  received t ev (map (fun id => (id, ev, payload)) l)
  = map (fun _ => payload) (filter (fun id => String.eqb id t) l).
Proof.
  unfold received. induction l as [|x l IH]; simpl; [reflexivity|].
  rewrite String.eqb_refl, andb_true_r.
  destruct (String.eqb x t); simpl; rewrite IH; reflexivity.
Qed.

Lemma mem_spec id l : mem id l = true <-> In id l.
Proof.
  unfold mem. rewrite existsb_exists. split.
  - intros [x [H E]]. apply String.eqb_eq in E. subst. exact H.
  - intros H. exists id. split; [exact H|apply String.eqb_refl].
Qed.

Lemma addressed_one tp (t : string) : addressed tp (VStr t) = members tp (VStr t).
Proof.
  unfold addressed, members. simpl. f_equal. f_equal.
  apply filter_ext. intros e. apply orb_false_r.
Qed.

Lemma connected_member tp t : In t (connected tp) -> In t (members tp (VStr t)).
Proof.
  unfold connected, members. rewrite !nodup_In, !in_map_iff.
  intros [[id joined] [E H]]. simpl in E; subst id.
  exists (t, joined). split; [reflexivity|].
  apply filter_In. split; [exact H|].
  unfold in_one_room. simpl. rewrite String.eqb_refl. reflexivity.
Qed.

(** [socket.to(t).emit] reaches a connected [t] outside the sender's own
    room once, and nobody inside that room. *)
Lemma forward_reaches tp sender t ev payload :
  In t (connected tp) ->
  mem t (members tp (VStr sender)) = false ->
  received t ev (deliveries tp sender [Emit (ToRoom (VStr t)) ev payload]) = [payload].
Proof.
  intros HIn Hout. unfold deliveries. simpl. rewrite app_nil_r.
  rewrite received_emit, addressed_one, filter_one; [reflexivity| |].
  - apply NoDup_filter, NoDup_nodup.
  - apply filter_In. split; [apply connected_member, HIn|].
    rewrite Hout. reflexivity.
Qed.

Lemma forward_skips tp sender room t ev payload :
  mem t (members tp (VStr sender)) = true ->
  received t ev (deliveries tp sender [Emit (ToRoom room) ev payload]) = [].
Proof.
  intros Hin. unfold deliveries. simpl. rewrite app_nil_r.
  rewrite received_emit, filter_none; [reflexivity|].
  intros H. apply filter_In in H. destruct H as [_ H].
  rewrite Hin in H. discriminate.
Qed.

Lemma sender_in_own_room tp sender :
  In sender (connected tp) -> mem sender (members tp (VStr sender)) = true.
Proof. intros H. apply mem_spec, connected_member, H. Qed.

(* ------------------------------------------------------------------ *)
(** ** Call initiation *)

(** C5. For every caller and registry state, an ["initiate-call"] whose
    target has no entry in [userSocketMap] changes nothing in the registry and
    emits one event only: ["call-rejected"] with [from] ["System"] and
    [reason] ["offline"], to the caller's own socket.  Under every transport
    the caller receives it once, and nobody receives an
    ["incoming-call"]. *)
Theorem offline_call_rejected (s : Socket) (data : JSVal) (st : State)
    (target : JSVal) :
  get_prop data "target" = Ok target ->
  routeTo st target = None ->
  exists effs,
    on_initiate_call s data st = Ok (st, effs)
    /\ effs = [Emit ToSender "call-rejected"
                    (VObj [("from", VStr "System"); ("reason", VStr "offline")])]
    /\ forall tp,
         received_by_any "call-rejected" (deliveries tp (sock_id s) effs)
         = [(sock_id s, "call-rejected",
             VObj [("from", VStr "System"); ("reason", VStr "offline")])]
         /\ received_by_any "incoming-call" (deliveries tp (sock_id s) effs) = [].
Proof.
  intros Ht Hr. eexists. split; [|split; [reflexivity|]].
  - unfold on_initiate_call. rewrite Ht. simpl. rewrite Hr. reflexivity.
  - intros tp. split; reflexivity.
Qed.

(** Witness of C5: only alice is registered and she calls bob. *)
Lemma offline_call_rejected_witness :
  exists effs,
    on_initiate_call alice1 (call_payload "bob") (register alice1 VNull initial)
    = Ok (register alice1 VNull initial, effs)
    /\ effs = [Emit ToSender "call-rejected"
                    (VObj [("from", VStr "System"); ("reason", VStr "offline")])]
    /\ forall tp,
         received_by_any "call-rejected" (deliveries tp "c1" effs)
         = [("c1", "call-rejected",
             VObj [("from", VStr "System"); ("reason", VStr "offline")])]
         /\ received_by_any "incoming-call" (deliveries tp "c1" effs) = [].
Proof.
  exact (offline_call_rejected alice1 (call_payload "bob")
           (register alice1 VNull initial) (VStr "bob") eq_refl eq_refl).
Defined.

(** C7 as stated fails when the route found is the caller's own socket:
    alice, whose only session is [c1], calls ["alice"]; the route resolves to
    [c1], the handler emits with [socket.to("c1")], which leaves the sender
    out, and [c1] receives no ["incoming-call"]. *)
Lemma self_call_not_delivered :
  routeTo (register alice1 VNull initial) (VStr "alice") = Some "c1"
  /\ on_initiate_call alice1 (call_payload "alice") (register alice1 VNull initial)
     = Ok (register alice1 VNull initial,
           [Emit (ToRoom (VStr "c1")) "incoming-call"
                 (VObj [("from", VStr "alice"); ("room", VStr "r1");
                        ("type", VStr "video"); ("callMode", VStr "p2p")])])
  /\ received "c1" "incoming-call"
       (deliveries three_connected "c1"
          [Emit (ToRoom (VStr "c1")) "incoming-call"
                (VObj [("from", VStr "alice"); ("room", VStr "r1");
                       ("type", VStr "video"); ("callMode", VStr "p2p")])])
     = [].
Proof. repeat split. Qed.

(** C7, amended.  When the target's route resolves to a socket id [t] (ids
    are never empty), ["initiate-call"] emits one event only, an
    ["incoming-call"] addressed to [t] that carries the caller's username and
    the payload's room, type and call mode.  A connected [t] outside the room
    named by the caller's id, so any socket but the caller's own, receives it
    exactly once; when [t] is the caller's own socket it receives nothing. *)
Theorem incoming_call_delivery (s : Socket) (data : JSVal) (st : State)
    (u t : string) :
  get_prop data "target" = Ok (VStr u) ->
  routeTo st (VStr u) = Some t ->
  t <> "" ->
  exists effs,
    on_initiate_call s data st = Ok (st, effs)
    /\ effs = [Emit (ToRoom (VStr t)) "incoming-call"
                    (VObj [("from", VStr (sock_username s));
                           ("room", field data "room");
                           ("type", field data "type");
                           ("callMode", field data "callMode")])]
    /\ forall tp,
         (In t (connected tp) ->
          mem t (members tp (VStr (sock_id s))) = false ->
          received t "incoming-call" (deliveries tp (sock_id s) effs)
          = [VObj [("from", VStr (sock_username s));
                   ("room", field data "room");
                   ("type", field data "type");
                   ("callMode", field data "callMode")]])
         /\ (In (sock_id s) (connected tp) ->
             t = sock_id s ->
             received t "incoming-call" (deliveries tp (sock_id s) effs) = []).
Proof.
  intros Ht Hr Hne.
  destruct (get_prop_inv _ _ _ Ht) as [N _].
  eexists. split; [|split; [reflexivity|]].
  - unfold on_initiate_call. rewrite Ht. cbn [bind].
    rewrite Hr. cbn [falsy_id id_or_undefined].
    apply String.eqb_neq in Hne. rewrite Hne.
    rewrite !(get_prop_ok _ _ N). reflexivity.
  - intros tp. split.
    + intros HIn Hout. apply forward_reaches; assumption.
    + intros Hs ->. apply forward_skips, sender_in_own_room, Hs.
Qed.

(** Witness of C7: alice on [c1] calls bob on [c3]; bob's socket receives
    the one ["incoming-call"]. *)
Lemma incoming_call_delivery_witness :
  received "c3" "incoming-call"
    (deliveries three_connected "c1"
       [Emit (ToRoom (VStr "c3")) "incoming-call"
             (VObj [("from", VStr "alice"); ("room", VStr "r1");
                    ("type", VStr "video"); ("callMode", VStr "p2p")])])
  = [VObj [("from", VStr "alice"); ("room", VStr "r1");
           ("type", VStr "video"); ("callMode", VStr "p2p")]].
Proof.
  destruct (incoming_call_delivery alice1 (call_payload "bob")
              (register bob VNull (register alice1 VNull initial))
              "bob" "c3" eq_refl eq_refl ltac:(discriminate))
    as [effs [_ [-> D]]].
  apply (proj1 (D three_connected)).
  - simpl. auto.
  - reflexivity.
Defined.

(* ------------------------------------------------------------------ *)
(** ** Direct messages *)

Lemma stamped_sender data sender time :
  get_prop (stamped data sender time) "sender" = Ok (VStr sender).
Proof. unfold stamped. simpl. rewrite !get_set. reflexivity. Qed.

Lemma stamped_time data sender time :
  get_prop (stamped data sender time) "time" = Ok (VStr time).
Proof. unfold stamped. simpl. rewrite get_set. reflexivity. Qed.

(** C4. For every ["private-chat"] that carries a payload, in every registry
    state: [db.saveMessage] is called exactly once, with the sender's
    username, the payload's [to], no room, and the kind ["private"]; and
    under every transport the sender's own socket receives a
    ["private-chat"] event whose [sender] is the sender's username and whose
    [time] is the clock reading.  When the addressee has no route, the write
    and the echo are all the handler does. *)
Theorem private_chat_persists_and_echoes (s : Socket) (data : JSVal)
    (now_fwd now_echo : string) (st : State) :
  is_nullish data = false ->
  exists effs,
    on_private_chat s data now_fwd now_echo st = Ok (st, effs)
    /\ saves effs = [SaveMessage (sock_username s) (field data "to") VNull
                                 (field data "text") (field data "image") "private"]
    /\ (forall tp,
          In (stamped data (sock_username s) now_echo)
             (received (sock_id s) "private-chat" (deliveries tp (sock_id s) effs)))
    /\ get_prop (stamped data (sock_username s) now_echo) "sender"
       = Ok (VStr (sock_username s))
    /\ get_prop (stamped data (sock_username s) now_echo) "time"
       = Ok (VStr now_echo)
    /\ (routeTo st (field data "to") = None ->
        effs = [SaveMessage (sock_username s) (field data "to") VNull
                            (field data "text") (field data "image") "private";
                Emit ToSender "private-chat"
                     (stamped data (sock_username s) now_echo)]).
Proof.
  intros N. eexists. split.
  - unfold on_private_chat. rewrite !(get_prop_ok _ _ N). reflexivity.
  - split; [|split; [|split; [|split]]].
    + simpl. destruct (falsy_id _); reflexivity.
    + intros tp. unfold deliveries, received.
      apply in_map_iff. exists (sock_id s, "private-chat",
                               stamped data (sock_username s) now_echo).
      split; [reflexivity|]. apply (proj2 (filter_In _ _ _)). split.
      * apply (proj2 (in_flat_map _ _ _)).
        exists (Emit ToSender "private-chat" (stamped data (sock_username s) now_echo)).
        split; [|left; reflexivity].
        simpl. right. apply in_or_app. right. left. reflexivity.
      * simpl. rewrite String.eqb_refl. reflexivity.
    + apply stamped_sender.
    + apply stamped_time.
    + intros Hr. rewrite Hr. reflexivity.
Qed.

(** Witness of C4: bob writes to alice, who is not connected. *)
Lemma private_chat_persists_and_echoes_witness :
  exists effs,
    on_private_chat bob (chat_payload "alice") "10:00" "10:01"
                    (register bob VNull initial)
    = Ok (register bob VNull initial, effs)
    /\ saves effs = [SaveMessage "bob" (VStr "alice") VNull (VStr "hi") VNull "private"]
    /\ received "c3" "private-chat" (deliveries three_connected "c3" effs)
       = [VObj [("to", VStr "alice"); ("text", VStr "hi"); ("image", VNull);
                ("sender", VStr "bob"); ("time", VStr "10:01")]].
Proof.
  destruct (private_chat_persists_and_echoes bob (chat_payload "alice")
              "10:00" "10:01" (register bob VNull initial) eq_refl)
    as [effs [R [S [_ [_ [_ E]]]]]].
  exists effs. split; [exact R|]. split; [exact S|].
  rewrite (E eq_refl). reflexivity.
Defined.

(* ------------------------------------------------------------------ *)
(** ** Offer, answer and candidate *)

(** C8. For every ["offer"], ["answer"] and ["ice"] that carries a payload,
    the handler emits one event of the same name addressed to the payload's
    [to].  Its payload holds the body ([offer], [answer], [candidate]) as
    received, [from] set to the sender's socket id and, for the offer only,
    [username] set to the sender's username, and nothing else.  A connected
    target socket other than the sender receives it exactly once. *)
Theorem signaling_forwarded_unmodified (s : Socket) (d : JSVal) (st : State) :
  is_nullish d = false ->
  on_offer s d st
  = Ok (st, [Emit (ToRoom (field d "to")) "offer"
                  (VObj [("offer", field d "offer"); ("from", VStr (sock_id s));
                         ("username", VStr (sock_username s))])])
  /\ on_answer s d st
     = Ok (st, [Emit (ToRoom (field d "to")) "answer"
                     (VObj [("answer", field d "answer");
                            ("from", VStr (sock_id s))])])
  /\ on_ice s d st
     = Ok (st, [Emit (ToRoom (field d "to")) "ice"
                     (VObj [("candidate", field d "candidate");
                            ("from", VStr (sock_id s))])])
  /\ forall tp t ev payload,
       field d "to" = VStr t ->
       In t (connected tp) ->
       mem t (members tp (VStr (sock_id s))) = false ->
       received t ev
         (deliveries tp (sock_id s) [Emit (ToRoom (field d "to")) ev payload])
       = [payload].
Proof.
  intros N. unfold on_offer, on_answer, on_ice.
  rewrite !(get_prop_ok _ _ N). cbn [bind].
  repeat split.
  intros tp t ev payload -> HIn Hout. apply forward_reaches; assumption.
Qed.

(** Witness of C8: alice on [c1] sends an offer to bob's socket [c3]. *)
Lemma signaling_forwarded_unmodified_witness :
  on_offer alice1 (VObj [("to", VStr "c3"); ("offer", sdp)]) initial
  = Ok (initial, [Emit (ToRoom (VStr "c3")) "offer"
                       (VObj [("offer", sdp); ("from", VStr "c1");
                              ("username", VStr "alice")])])
  /\ received "c3" "offer"
       (deliveries three_connected "c1"
          [Emit (ToRoom (VStr "c3")) "offer"
                (VObj [("offer", sdp); ("from", VStr "c1");
                       ("username", VStr "alice")])])
     = [VObj [("offer", sdp); ("from", VStr "c1"); ("username", VStr "alice")]].
Proof.
  destruct (signaling_forwarded_unmodified alice1
              (VObj [("to", VStr "c3"); ("offer", sdp)]) initial eq_refl)
    as [O [_ [_ D]]].
  split; [exact O|].
  apply (D three_connected "c3" "offer" _ eq_refl).
  - simpl. auto.
  - reflexivity.
Defined.

(* ------------------------------------------------------------------ *)
(** ** Payloads that miss fields *)




(* ------------------------------------------------------------------ *)
(** ** More on the presence view: order and representative *)

Lemma has_mem_keys (V : Type) k (m : JSMap.t V) :
  JSMap.has k m = mem k (JSMap.keys m).
Proof.
  unfold JSMap.has, mem.
  induction m as [|[k0 v0] rest IH]; simpl; [reflexivity|].
  destruct (String.eqb k k0); [reflexivity|exact IH].
Qed.

Lemma keys_unique_step (um : JSMap.t User) e :
  JSMap.keys (unique_step um e)
  = if JSMap.has (username (snd e)) um then JSMap.keys um
    else JSMap.keys um ++ [username (snd e)].
Proof.
  unfold unique_step.
  destruct (JSMap.has (username (snd e)) um) eqn:H; simpl.
  - destruct (JSMap.get (username (snd e)) um); [|reflexivity].
    destruct (isBusy (snd e)); [|reflexivity].
    rewrite keys_set, H. reflexivity.
  - rewrite keys_set, H. reflexivity.
Qed.

Lemma keys_unique_fold l : forall um,
  JSMap.keys (fold_left unique_step l um)
  = JSMap.keys um ++ first_occurrences (JSMap.keys um) (session_usernames l).
Proof.
  induction l as [|e rest IH]; intros um; simpl.
  - rewrite app_nil_r. reflexivity.
  - rewrite IH, keys_unique_step, <- has_mem_keys.
    destruct (JSMap.has (username (snd e)) um); [reflexivity|].
    rewrite <- app_assoc. reflexivity.
Qed.

(** X1. The view lists the usernames of the stored sessions once each, in
    the order in which they first appear in [onlineUsers]. *)
Theorem view_order (online : JSMap.t User) :
  map username (getUniqueOnlineUsers online)
  = first_occurrences [] (session_usernames online).
Proof.
  rewrite view_usernames, keys_unique_fold. reflexivity.
Qed.

Lemma find_app (A : Type) (f : A -> bool) (a b : list A) :
  find f (a ++ b) = match find f a with Some x => Some x | None => find f b end.
Proof.
  induction a as [|x a IH]; simpl; [reflexivity|].
  destruct (f x); [reflexivity|exact IH].
Qed.

Lemma first_session_unseen (seen um : JSMap.t User) u :
  (forall e, In e seen -> JSMap.has (username (snd e)) um = true) ->
  JSMap.has u um = false ->
  first_session u seen = None.
Proof.
  intros Hcov Hno. unfold first_session.
  destruct (find _ seen) as [p|] eqn:F; [|reflexivity].
  apply find_some in F. destruct F as [HIn E].
  apply String.eqb_eq in E. specialize (Hcov _ HIn). congruence.
Qed.

Lemma representative_step (seen um : JSMap.t User) e :
  representative_inv seen um ->
  representative_inv (seen ++ [e]) (unique_step um e).
Proof.
  intros [Hrep Hcov].
  assert (Hold : forall k u,
             JSMap.get k um = Some u ->
             exists p, first_session k (seen ++ [e]) = Some p
                       /\ avatar u = avatar (snd p)
                       /\ currentRoom u = currentRoom (snd p)).
  { intros k u G. destruct (Hrep _ _ G) as [p [F R]].
    exists p. split; [|exact R].
    unfold first_session in *. rewrite find_app, F. reflexivity. }
  assert (Hcov' : forall um' : JSMap.t User,
             (forall k, JSMap.has k um = true -> JSMap.has k um' = true) ->
             JSMap.has (username (snd e)) um' = true ->
             forall e', In e' (seen ++ [e]) -> JSMap.has (username (snd e')) um' = true).
  { intros um' Hmono Hnew e' HIn. apply in_app_or in HIn.
    destruct HIn as [HIn|[<-|[]]]; [apply Hmono, Hcov, HIn|exact Hnew]. }
  unfold unique_step.
  destruct (JSMap.has (username (snd e)) um) eqn:Hhas; simpl.
  - pose proof Hhas as Hhas'. unfold JSMap.has in Hhas'.
    destruct (JSMap.get (username (snd e)) um) as [existing|] eqn:G; [|discriminate].
    destruct (isBusy (snd e)).
    + split.
      * intros k u. rewrite get_set.
        destruct (String.eqb k (username (snd e))) eqn:E; [|apply Hold].
        apply String.eqb_eq in E; subst k. intros H; inversion H; subst.
        apply (Hold _ _ G).
      * apply Hcov'.
        -- intros k H. rewrite has_set, H. apply orb_true_r.
        -- rewrite has_set, String.eqb_refl. reflexivity.
    + split; [exact Hold|]. apply Hcov'; auto.
  - split.
    + intros k u. rewrite get_set.
      destruct (String.eqb k (username (snd e))) eqn:E; [|apply Hold].
      apply String.eqb_eq in E; subst k. intros H; inversion H; subst.
      exists e. split; [|auto].
      unfold first_session. rewrite find_app.
      fold (first_session (username (snd e)) seen).
      rewrite (first_session_unseen seen um _ Hcov Hhas).
      simpl. rewrite String.eqb_refl. reflexivity.
    + apply Hcov'.
      * intros k H. rewrite has_set, H. apply orb_true_r.
      * rewrite has_set, String.eqb_refl. reflexivity.
Qed.

Lemma representative_fold l : forall seen um,
  representative_inv seen um ->
  representative_inv (seen ++ l) (fold_left unique_step l um).
Proof.
  induction l as [|e rest IH]; intros seen um Inv; simpl.
  - rewrite app_nil_r. exact Inv.
  - replace (seen ++ e :: rest) with ((seen ++ [e]) ++ rest)
      by (rewrite <- app_assoc; reflexivity).
    apply IH, representative_step, Inv.
Qed.

(** X2. Each entry of the view carries the avatar and the room of the first
    stored session of its username; of the later sessions of that username
    only [isBusy] is merged in. *)
Theorem view_representative (online : JSMap.t User) (e : User) :
  In e (getUniqueOnlineUsers online) ->
  exists id user,
    first_session (username e) online = Some (id, user)
    /\ avatar e = avatar user
    /\ currentRoom e = currentRoom user.
Proof.
  intros HIn.
  assert (Inv : representative_inv online (fold_left unique_step online JSMap.empty)).
  { apply (representative_fold online [] JSMap.empty). split.
    - intros k u H. discriminate.
    - intros p []. }
  destruct (proj1 Inv _ _ (view_entry _ _ HIn)) as [[id user] [F R]].
  exists id, user. auto.
Qed.

(** Witness of X2: alice's first session has avatar [a1] and no room, her
    second has avatar [a2] and is in room [r1]; the view shows [a1], no room,
    and busy. *)
Lemma view_representative_witness :
  getUniqueOnlineUsers
    [("c1", mkUser "alice" false VNull (VStr "a1"));
     ("c2", mkUser "alice" true (VStr "r1") (VStr "a2"))]
  = [mkUser "alice" true VNull (VStr "a1")]
  /\ exists id user,
       first_session "alice"
         [("c1", mkUser "alice" false VNull (VStr "a1"));
          ("c2", mkUser "alice" true (VStr "r1") (VStr "a2"))] = Some (id, user)
       /\ VStr "a1" = avatar user /\ VNull = currentRoom user.
Proof.
  split; [reflexivity|].
  exact (view_representative
           [("c1", mkUser "alice" false VNull (VStr "a1"));
            ("c2", mkUser "alice" true (VStr "r1") (VStr "a2"))]
           (mkUser "alice" true VNull (VStr "a1")) (or_introl eq_refl)).
Defined.

(* ------------------------------------------------------------------ *)
(** ** Which sessions are stored *)

Lemma has_after e st c :
  JSMap.has c (onlineUsers (registry_effect e st))
  = live_step c (JSMap.has c (onlineUsers st)) e.
Proof.
  unfold JSMap.has.
  destruct e; cbn [registry_effect live_step]; try reflexivity.
  - rewrite session_after_register, String.eqb_sym.
    destruct (String.eqb (sock_id s) c); reflexivity.
  - rewrite session_after_markBusy.
    destruct (JSMap.get c (onlineUsers st)); [|reflexivity].
    destruct (String.eqb c (sock_id s)); reflexivity.
  - rewrite session_after_unregister, String.eqb_sym.
    destruct (String.eqb (sock_id s) c); reflexivity.
Qed.

Lemma has_after_run tr : forall st0 st c,
  run tr st0 = Ok st ->
  JSMap.has c (onlineUsers st)
  = fold_left (live_step c) tr (JSMap.has c (onlineUsers st0)).
Proof.
  induction tr as [|e rest IH]; intros st0 st c R.
  - simpl in R. inversion R. reflexivity.
  - destruct (run_cons _ _ _ _ R) as [effs [_ R']].
    rewrite (IH _ _ c R'), has_after. reflexivity.
Qed.

Lemma nodup_keys_effect e st :
  NoDup (JSMap.keys (onlineUsers st)) ->
  NoDup (JSMap.keys (userSocketMap st)) ->
  NoDup (JSMap.keys (onlineUsers (registry_effect e st)))
  /\ NoDup (JSMap.keys (userSocketMap (registry_effect e st))).
Proof.
  intros N1 N2.
  destruct e; cbn [registry_effect]; try (split; assumption).
  - split; apply nodup_keys_set; assumption.
  - unfold markBusy. destruct (JSMap.get (sock_id s) (onlineUsers st)).
    + split; [apply nodup_keys_set, N1|exact N2].
    + split; assumption.
  - split; apply nodup_keys_delete; assumption.
Qed.

Lemma nodup_keys_run tr : forall st0 st,
  run tr st0 = Ok st ->
  NoDup (JSMap.keys (onlineUsers st0)) ->
  NoDup (JSMap.keys (userSocketMap st0)) ->
  NoDup (JSMap.keys (onlineUsers st)) /\ NoDup (JSMap.keys (userSocketMap st)).
Proof.
  induction tr as [|e rest IH]; intros st0 st R N1 N2.
  - simpl in R. inversion R; subst. auto.
  - destruct (run_cons _ _ _ _ R) as [effs [_ R']].
    destruct (nodup_keys_effect e st0 N1 N2) as [N1' N2'].
    exact (IH _ _ R' N1' N2').
Qed.

(** X3. In every state reached from the empty registry, [onlineUsers] holds
    the socket id [c] exactly when the last registration or disconnect of [c]
    in the run was a registration, and holds no id twice.  So a disconnect
    always removes the session, and a registration that comes after the
    socket's disconnect (the avatar lookup answered late) stores a session
    that stays until that id disconnects again. *)
Theorem sessions_track_sockets (tr : list Event) (st : State) :
  run tr initial = Ok st ->
  NoDup (JSMap.keys (onlineUsers st))
  /\ forall c, JSMap.has c (onlineUsers st) = live c tr.
Proof.
  intros R. split.
  - apply (nodup_keys_run tr initial st R); constructor.
  - intros c. apply (has_after_run tr initial st c R).
Qed.

(** Witness of X3: bob's socket closes before its avatar callback fires;
    alice registers and disconnects in order.  Bob's session is stored,
    alice's is not. *)
Lemma sessions_track_sockets_witness :
  exists st,
    run [EvRegister alice1 VNull; EvDisconnect bob; EvDisconnect alice1;
         EvRegister bob VNull] initial = Ok st
    /\ JSMap.keys (onlineUsers st) = ["c3"]
    /\ JSMap.has "c3" (onlineUsers st) = true
    /\ JSMap.has "c1" (onlineUsers st) = false.
Proof.
  eexists. split; [reflexivity|]. split; [reflexivity|].
  split.
  - rewrite (proj2 (sessions_track_sockets
                      [EvRegister alice1 VNull; EvDisconnect bob;
                       EvDisconnect alice1; EvRegister bob VNull] _ eq_refl) "c3").
    reflexivity.
  - rewrite (proj2 (sessions_track_sockets
                      [EvRegister alice1 VNull; EvDisconnect bob;
                       EvDisconnect alice1; EvRegister bob VNull] _ eq_refl) "c1").
    reflexivity.
Defined.

(** X4. Whoever can be called is shown online: in every state reached from
    the empty registry by a run in which a socket id stands for one socket,
    a username that has a route has an entry in the presence view. *)
Theorem routable_is_listed (tr : list Event) (st : State) (u c : string) :
  sockets_consistent (map event_socket tr) ->
  run tr initial = Ok st ->
  routeTo st (VStr u) = Some c ->
  exists e, In e (getUniqueOnlineUsers (onlineUsers st)) /\ username e = u.
Proof.
  intros Cons R G.
  assert (Inv : registry_inv (map event_socket tr) st).
  { apply (registry_inv_run _ tr initial st Cons).
    - intros e H. apply in_map, H.
    - apply registry_inv_initial.
    - exact R. }
  simpl in G. apply get_in in G.
  destruct (proj1 Inv _ _ G) as [user [Gs Hu]].
  destruct (view_covers _ _ _ (get_in _ _ _ _ Gs)) as [e [HIn He]].
  exists e. split; [exact HIn|congruence].
Qed.

(** Witness of X4. *)
Lemma routable_is_listed_witness :
  exists e,
    In e (getUniqueOnlineUsers
            [("c2", mkUser "alice" false VNull VNull);
             ("c3", mkUser "bob" true (VStr "r1") VNull)])
    /\ username e = "bob".
Proof.
  exact (routable_is_listed
           [EvRegister alice1 VNull; EvRegister alice2 VNull; EvRegister bob VNull;
            EvJoin bob (VObj [("room", VStr "r1")]); EvDisconnect alice1]
           _ "bob" "c3" sample_sockets_consistent eq_refl eq_refl).
Defined.

(* ------------------------------------------------------------------ *)
(** ** Join before registration *)

(** X5. A ["join"] handled while the socket has no stored session (its
    avatar callback has not fired yet) leaves the registry as it is, yet the
    socket enters the room and the room is told; when the callback fires
    afterwards the session is stored as not busy and without room. *)
Theorem join_before_registration (s : Socket) (data av : JSVal) (st : State) :
  JSMap.get (sock_id s) (onlineUsers st) = None ->
  is_nullish data = false ->
  on_join s data st
  = Ok (st, [JoinRoom (field data "room");
             update_user_list st;
             Emit (ToRoom (field data "room")) "user-joined"
                  (VObj [("id", VStr (sock_id s));
                         ("username", VStr (sock_username s))])])
  /\ exists st',
       run [EvJoin s data; EvRegister s av] st = Ok st'
       /\ JSMap.get (sock_id s) (onlineUsers st')
          = Some (mkUser (sock_username s) false VNull av).
Proof.
  intros G N.
  assert (M : markBusy (sock_id s) (field data "room") st = st).
  { unfold markBusy. rewrite G. reflexivity. }
  assert (J : on_join s data st
              = Ok (st, [JoinRoom (field data "room");
                         update_user_list st;
                         Emit (ToRoom (field data "room")) "user-joined"
                              (VObj [("id", VStr (sock_id s));
                                     ("username", VStr (sock_username s))])])).
  { unfold on_join. rewrite (get_prop_ok _ _ N). cbn [bind]. rewrite M. reflexivity. }
  split; [exact J|].
  exists (register s av st). split.
  - cbn [run step]. rewrite J. reflexivity.
  - rewrite session_after_register, String.eqb_refl. reflexivity.
Qed.

(** Witness of X5: bob joins [r1] before his registration. *)
Lemma join_before_registration_witness :
  exists st',
    run [EvJoin bob (VObj [("room", VStr "r1")]); EvRegister bob VNull] initial
    = Ok st'
    /\ JSMap.get "c3" (onlineUsers st') = Some (mkUser "bob" false VNull VNull).
Proof.
  exact (proj2 (join_before_registration bob (VObj [("room", VStr "r1")]) VNull
                  initial eq_refl eq_refl)).
Defined.

(* ------------------------------------------------------------------ *)
(** ** What the relay handlers leave alone *)

(** X6. The relay handlers never write the registry, and only the two
    message handlers write to the store: a successful ["initiate-call"],
    ["offer"], ["answer"] or ["ice"] leaves both maps unchanged, calls
    [db.saveMessage] never and emits exactly one event; a successful
    ["chat-message"] or ["private-chat"] leaves both maps unchanged and calls
    [db.saveMessage] exactly once; the three registry events never call
    it. *)
Theorem relay_leaves_registry (e : Event) (st st' : State) (effs : list Effect) :
  step e st = Ok (st', effs) ->
  (is_signaling e = true -> st' = st /\ saves effs = [] /\ length effs = 1)
  /\ (is_message e = true -> st' = st /\ length (saves effs) = 1)
  /\ (broadcasts_presence e = true -> saves effs = []).
Proof.
  intros S. pose proof (step_state _ _ _ _ S) as E.
  destruct e; cbn [is_signaling is_message broadcasts_presence];
    (split; [|split]); try discriminate; intros _;
    cbn [registry_effect] in E; subst st';
    cbn [step] in S;
    unfold on_connection, on_initiate_call, on_join, on_chat_message,
           on_private_chat, on_disconnect, on_offer, on_answer, on_ice in S.
  - inversion S; reflexivity.
  - read_payload data. destruct (falsy_id _); inversion S; auto.
  - read_payload data. inversion S; reflexivity.
  - read_payload data. inversion S; auto.
  - read_payload data. inversion S. split; [reflexivity|].
    simpl. destruct (falsy_id _); reflexivity.
  - inversion S; reflexivity.
  - read_payload d. inversion S; auto.
  - read_payload d. inversion S; auto.
  - read_payload d. inversion S; auto.
Qed.

(** Witness of X6: an offer and a private message in a state with two
    sessions. *)
Lemma relay_leaves_registry_witness :
  (register bob VNull (register alice1 VNull initial)
   = register bob VNull (register alice1 VNull initial)
   /\ saves [Emit (ToRoom (VStr "c3")) "offer"
                  (VObj [("offer", sdp); ("from", VStr "c1");
                         ("username", VStr "alice")])] = []
   /\ 1 = 1)
  /\ exists effs,
       step (EvPrivateChat bob (chat_payload "alice") "10:00" "10:01")
            (register bob VNull (register alice1 VNull initial))
       = Ok (register bob VNull (register alice1 VNull initial), effs)
       /\ length (saves effs) = 1.
Proof.
  split.
  - exact (proj1 (relay_leaves_registry
                    (EvOffer alice1 (VObj [("to", VStr "c3"); ("offer", sdp)]))
                    (register bob VNull (register alice1 VNull initial))
                    _ _ eq_refl) eq_refl).
  - eexists. split; [reflexivity|].
    exact (proj2 (proj1 (proj2 (relay_leaves_registry
                    (EvPrivateChat bob (chat_payload "alice") "10:00" "10:01")
                    (register bob VNull (register alice1 VNull initial))
                    _ _ eq_refl)) eq_refl)).
Defined.

(* ------------------------------------------------------------------ *)
(** ** Delivery into rooms and to everybody *)

Lemma received_app c ev (a b : list Delivery) :
  received c ev (a ++ b) = received c ev a ++ received c ev b.
Proof. unfold received. rewrite filter_app, map_app. reflexivity. Qed.

Lemma received_other c ev ev' payload (l : list string) :
  String.eqb ev' ev = false ->
  received c ev (map (fun id => (id, ev', payload)) l) = [].
Proof.
  intros E. unfold received. induction l as [|x l IH]; simpl; [reflexivity|].
  rewrite E, andb_false_r. exact IH.
Qed.

Lemma received_by_any_other ev ev' payload (l : list string) :
  String.eqb ev' ev = false ->
  received_by_any ev (map (fun id => (id, ev', payload)) l) = [].
Proof.
  intros E. unfold received_by_any. induction l as [|x l IH]; simpl; [reflexivity|].
  rewrite E. exact IH.
Qed.

Lemma addressed_room tp r :
  names_a_room r = true -> addressed tp r = members tp r.
Proof.
  intros H. unfold addressed, members.
  destruct r; simpl in H; try discriminate; simpl;
    f_equal; f_equal; apply filter_ext; intros e; apply orb_false_r.
Qed.

Lemma room_reaches tp sender r b ev payload :
  names_a_room r = true ->
  In b (members tp r) ->
  mem b (members tp (VStr sender)) = false ->
  received b ev (deliveries tp sender [Emit (ToRoom r) ev payload]) = [payload].
Proof.
  intros Hr HIn Hout. unfold deliveries. simpl. rewrite app_nil_r.
  rewrite received_emit, (addressed_room _ _ Hr), filter_one; [reflexivity| |].
  - apply NoDup_filter, NoDup_nodup.
  - apply filter_In. split; [exact HIn|]. rewrite Hout. reflexivity.
Qed.

Lemma room_misses tp sender r b ev payload :
  names_a_room r = true ->
  ~ In b (members tp r) ->
  received b ev (deliveries tp sender [Emit (ToRoom r) ev payload]) = [].
Proof.
  intros Hr Hnot. unfold deliveries. simpl. rewrite app_nil_r.
  rewrite received_emit, (addressed_room _ _ Hr), filter_none; [reflexivity|].
  intros H. apply filter_In in H. tauto.
Qed.

Lemma everybody_reached tp sender c ev payload :
  In c (connected tp) ->
  received c ev (deliveries tp sender [Emit ToAll ev payload]) = [payload].
Proof.
  intros HIn. unfold deliveries. simpl. rewrite app_nil_r.
  rewrite received_emit, filter_one; [reflexivity| |exact HIn].
  apply NoDup_nodup.
Qed.

Lemma deliveries_cons tp sender eff effs :
  deliveries tp sender (eff :: effs)
  = deliveries tp sender [eff] ++ deliveries tp sender effs.
Proof. unfold deliveries. simpl. rewrite app_nil_r. reflexivity. Qed.

Lemma deliveries_save tp sender a b c d e f effs :
  deliveries tp sender (SaveMessage a b c d e f :: effs) = deliveries tp sender effs.
Proof. reflexivity. Qed.

Lemma deliveries_join tp sender r effs :
  deliveries tp sender (JoinRoom r :: effs) = deliveries tp sender effs.
Proof. reflexivity. Qed.

(** [socket.join(r)] makes the socket a member of [r]. *)
Lemma joined_member tp b r :
  names_a_room r = true ->
  In b (connected tp) ->
  In b (members (tp_join b r tp) r).
Proof.
  intros Hr HIn. unfold connected in HIn. unfold members.
  rewrite nodup_In in *. apply in_map_iff in HIn.
  destruct HIn as [[id joined] [E H]]. simpl in E; subst id.
  apply in_map_iff. exists (b, joined ++ target_rooms r). split; [reflexivity|].
  apply filter_In. split.
  - unfold tp_join. apply in_map_iff. exists (b, joined). split; [|exact H].
    simpl. rewrite String.eqb_refl. reflexivity.
  - unfold in_one_room. simpl. rewrite existsb_app.
    assert (T : existsb (same_value_zero r) (target_rooms r) = true).
    { destruct r; simpl in Hr; try discriminate; simpl;
        unfold names_a_room in Hr; simpl in Hr; rewrite ?Hr; reflexivity. }
    rewrite T, !orb_true_r. reflexivity.
Qed.

(** X7. Room chat.  A ["chat-message"] that carries a payload whose [room]
    names one room is written to the store once, as a group message without
    receiver, and changes nothing in the registry.  A member of the room
    that is outside the room named by the sender's socket id receives the
    event exactly once, with the payload stamped with the sender's username
    and the clock reading.  The sockets outside the room, the sockets inside
    the room named by the sender's socket id, and so the sender itself,
    receive nothing. *)
Theorem chat_room_broadcast (s : Socket) (data : JSVal) (now : string)
    (st : State) (tp : Transport) (b : string) :
  is_nullish data = false ->
  names_a_room (field data "room") = true ->
  exists effs,
    on_chat_message s data now st = Ok (st, effs)
    /\ saves effs = [SaveMessage (sock_username s) VNull (field data "room")
                                 (field data "text") (field data "image") "group"]
    /\ (In b (members tp (field data "room")) ->
        mem b (members tp (VStr (sock_id s))) = false ->
        received b "chat-message" (deliveries tp (sock_id s) effs)
        = [stamped data (sock_username s) now])
    /\ (~ In b (members tp (field data "room")) ->
        received b "chat-message" (deliveries tp (sock_id s) effs) = [])
    /\ (In (sock_id s) (connected tp) ->
        received (sock_id s) "chat-message" (deliveries tp (sock_id s) effs) = [])
    /\ (mem b (members tp (VStr (sock_id s))) = true ->
        received b "chat-message" (deliveries tp (sock_id s) effs) = []).
Proof.
  intros N Hr. eexists. split.
  - unfold on_chat_message. rewrite !(get_prop_ok _ _ N). reflexivity.
  - split; [reflexivity|]. rewrite deliveries_save. repeat split.
    + intros HIn Hout. apply room_reaches; assumption.
    + intros Hnot. apply room_misses; assumption.
    + intros Hs. apply forward_skips, sender_in_own_room, Hs.
    + intros Hin. apply forward_skips, Hin.
Qed.

(** Witness of X7: alice ([c1]) and bob ([c3]) are in [r1], [c2] is not;
    alice writes, with a forged [sender] in the payload. *)
Lemma chat_room_broadcast_witness :
  exists effs,
    on_chat_message alice1 room_message "10:00" initial = Ok (initial, effs)
    /\ received "c3" "chat-message" (deliveries room_r1 "c1" effs)
       = [VObj [("room", VStr "r1"); ("text", VStr "hi"); ("image", VNull);
                ("sender", VStr "alice"); ("time", VStr "10:00")]]
    /\ received "c2" "chat-message" (deliveries room_r1 "c1" effs) = []
    /\ received "c1" "chat-message" (deliveries room_r1 "c1" effs) = [].
Proof.
  destruct (chat_room_broadcast alice1 room_message "10:00" initial room_r1 "c3"
              eq_refl eq_refl) as [effs [R [_ [D _]]]].
  exists effs. split; [exact R|]. split.
  - apply D; [|reflexivity]. simpl. auto.
  - inversion R; subst. split; reflexivity.
Defined.

Lemma received_other_emit tp sender c d ev ev' payload :
  String.eqb ev' ev = false ->
  received c ev (deliveries tp sender [Emit d ev' payload]) = [].
Proof.
  intros E. unfold deliveries. simpl. rewrite app_nil_r.
  apply received_other, E.
Qed.

Lemma received_by_any_app ev (a b : list Delivery) :
  received_by_any ev (a ++ b) = received_by_any ev a ++ received_by_any ev b.
Proof. apply filter_app. Qed.

Lemma received_by_any_other_emit tp sender d ev ev' payload :
  String.eqb ev' ev = false ->
  received_by_any ev (deliveries tp sender [Emit d ev' payload]) = [].
Proof.
  intros E. unfold deliveries. simpl. rewrite app_nil_r.
  apply received_by_any_other, E.
Qed.

Lemma echo_received tp sender c ev payload :
  received c ev (deliveries tp sender [Emit ToSender ev payload])
  = if String.eqb sender c then [payload] else [].
Proof.
  unfold deliveries, received. simpl.
  rewrite String.eqb_refl, andb_true_r.
  destruct (String.eqb sender c); reflexivity.
Qed.

Lemma connected_tp_join id r tp : connected (tp_join id r tp) = connected tp.
Proof.
  unfold connected, tp_join. rewrite map_map. f_equal.
  apply map_ext. intros e. destruct (String.eqb (fst e) id); reflexivity.
Qed.

Lemma skip_user_list tp sender c ev st effs :
  String.eqb "update-user-list" ev = false ->
  received c ev (deliveries tp sender (update_user_list st :: effs))
  = received c ev (deliveries tp sender effs).
Proof.
  intros E. unfold update_user_list.
  rewrite deliveries_cons, received_app, received_other_emit by exact E.
  reflexivity.
Qed.

(** X8. Joining a room.  A ["join"] that carries a payload whose [room]
    names one room asks the transport to enter that room, after which the
    joiner is a member of it.  A member of the room that is outside the room
    named by the joiner's socket id receives exactly one ["user-joined"]
    carrying the joiner's socket id and username; the joiner, and any socket
    inside the room named by the joiner's socket id, receives none. *)
Theorem join_announced (s : Socket) (data : JSVal) (st : State)
    (tp0 : Transport) (b : string) :
  is_nullish data = false ->
  names_a_room (field data "room") = true ->
  In (sock_id s) (connected tp0) ->
  exists st' rest,
    on_join s data st = Ok (st', JoinRoom (field data "room") :: rest)
    /\ In (sock_id s)
          (members (tp_join (sock_id s) (field data "room") tp0) (field data "room"))
    /\ (In b (members (tp_join (sock_id s) (field data "room") tp0)
                      (field data "room")) ->
        mem b (members (tp_join (sock_id s) (field data "room") tp0)
                       (VStr (sock_id s))) = false ->
        received b "user-joined"
          (deliveries (tp_join (sock_id s) (field data "room") tp0) (sock_id s) rest)
        = [VObj [("id", VStr (sock_id s)); ("username", VStr (sock_username s))]])
    /\ received (sock_id s) "user-joined"
         (deliveries (tp_join (sock_id s) (field data "room") tp0) (sock_id s) rest)
       = []
    /\ (mem b (members (tp_join (sock_id s) (field data "room") tp0)
                       (VStr (sock_id s))) = true ->
        received b "user-joined"
          (deliveries (tp_join (sock_id s) (field data "room") tp0) (sock_id s) rest)
        = []).
Proof.
  intros N Hr Hs. eexists. eexists. split.
  - unfold on_join. rewrite (get_prop_ok _ _ N). reflexivity.
  - split; [apply joined_member; assumption|].
    split; [|split].
    + intros HIn Hout. rewrite skip_user_list by reflexivity.
      apply room_reaches; assumption.
    + rewrite skip_user_list by reflexivity.
      apply forward_skips, sender_in_own_room.
      rewrite connected_tp_join. exact Hs.
    + intros Hin. rewrite skip_user_list by reflexivity.
      apply forward_skips, Hin.
Qed.

(** Witness of X8: alice ([c1]) joins [r1], where bob ([c3]) already is. *)
Lemma join_announced_witness :
  exists st' rest,
    on_join alice1 (VObj [("room", VStr "r1")]) (register alice1 VNull initial)
    = Ok (st', JoinRoom (VStr "r1") :: rest)
    /\ received "c3" "user-joined" (deliveries room_r1 "c1" rest)
       = [VObj [("id", VStr "c1"); ("username", VStr "alice")]]
    /\ received "c1" "user-joined" (deliveries room_r1 "c1" rest) = [].
Proof.
  destruct (join_announced alice1 (VObj [("room", VStr "r1")])
              (register alice1 VNull initial) three_connected "c3"
              eq_refl eq_refl ltac:(simpl; auto))
    as [st' [rest [R [_ [D1 [D2 _]]]]]].
  exists st', rest. split; [exact R|]. split.
  - apply D1; [|reflexivity]. simpl. auto.
  - exact D2.
Defined.

(** X9. Direct messages.  For a ["private-chat"] that carries a payload,
    sent from a connected socket: the sender's socket receives exactly one
    ["private-chat"], the echo stamped with the second clock reading, whoever
    the addressee is.  When the addressee's route leads to a connected socket
    (with a non-empty id) outside the room named by the sender's socket id,
    that socket receives exactly one, stamped with the first clock reading.
    A socket other than the sender that is inside the room named by the
    sender's socket id receives nothing, and when the addressee has no route
    no socket other than the sender receives anything. *)
Theorem private_chat_delivery (s : Socket) (data : JSVal)
    (now_fwd now_echo : string) (st : State) (tp : Transport) :
  is_nullish data = false ->
  In (sock_id s) (connected tp) ->
  exists effs,
    on_private_chat s data now_fwd now_echo st = Ok (st, effs)
    /\ received (sock_id s) "private-chat" (deliveries tp (sock_id s) effs)
       = [stamped data (sock_username s) now_echo]
    /\ (forall t,
          routeTo st (field data "to") = Some t ->
          t <> "" ->
          In t (connected tp) ->
          mem t (members tp (VStr (sock_id s))) = false ->
          received t "private-chat" (deliveries tp (sock_id s) effs)
          = [stamped data (sock_username s) now_fwd])
    /\ (routeTo st (field data "to") = None ->
        forall c, c <> sock_id s ->
                  received c "private-chat" (deliveries tp (sock_id s) effs) = [])
    /\ (forall c, c <> sock_id s ->
                  mem c (members tp (VStr (sock_id s))) = true ->
                  received c "private-chat" (deliveries tp (sock_id s) effs) = []).
Proof.
  intros N Hs. eexists. split.
  - unfold on_private_chat. rewrite !(get_prop_ok _ _ N). reflexivity.
  - cbn [app]. rewrite deliveries_save.
    pose proof (sender_in_own_room _ _ Hs) as Hown.
    split; [|split; [|split]]; cycle 3.
    { intros c Hc Hin.
      assert (Echo : received c "private-chat"
                       (deliveries tp (sock_id s)
                          [Emit ToSender "private-chat"
                                (stamped data (sock_username s) now_echo)]) = []).
      { rewrite echo_received.
        destruct (String.eqb (sock_id s) c) eqn:E; [|reflexivity].
        apply String.eqb_eq in E. congruence. }
      destruct (falsy_id _); cbn [app]; [exact Echo|].
      rewrite deliveries_cons, received_app, (forward_skips _ _ _ _ _ _ Hin).
      exact Echo. }
    + destruct (falsy_id _); cbn [app].
      * rewrite echo_received, String.eqb_refl. reflexivity.
      * rewrite deliveries_cons, received_app, (forward_skips _ _ _ _ _ _ Hown).
        rewrite echo_received, String.eqb_refl. reflexivity.
    + intros t Hr Hne HIn Hout. rewrite Hr. cbn [falsy_id id_or_undefined].
      apply String.eqb_neq in Hne. rewrite Hne. cbn [app].
      rewrite deliveries_cons, received_app, forward_reaches by assumption.
      rewrite echo_received.
      destruct (String.eqb (sock_id s) t) eqn:E; [|reflexivity].
      apply String.eqb_eq in E. subst t. congruence.
    + intros Hr c Hc. rewrite Hr. cbn [falsy_id app].
      rewrite echo_received.
      destruct (String.eqb (sock_id s) c) eqn:E; [|reflexivity].
      apply String.eqb_eq in E. congruence.
Qed.

(** Witness of X9: bob ([c3]) writes to alice, routed to [c2]. *)
Lemma private_chat_delivery_witness :
  exists effs,
    on_private_chat bob (chat_payload "alice") "10:00" "10:01"
      (register alice2 VNull (register bob VNull initial))
    = Ok (register alice2 VNull (register bob VNull initial), effs)
    /\ received "c3" "private-chat" (deliveries three_connected "c3" effs)
       = [VObj [("to", VStr "alice"); ("text", VStr "hi"); ("image", VNull);
                ("sender", VStr "bob"); ("time", VStr "10:01")]]
    /\ received "c2" "private-chat" (deliveries three_connected "c3" effs)
       = [VObj [("to", VStr "alice"); ("text", VStr "hi"); ("image", VNull);
                ("sender", VStr "bob"); ("time", VStr "10:00")]].
Proof.
  destruct (private_chat_delivery bob (chat_payload "alice") "10:00" "10:01"
              (register alice2 VNull (register bob VNull initial))
              three_connected eq_refl ltac:(simpl; auto))
    as [effs [R [D1 [D2 _]]]].
  exists effs. split; [exact R|]. split; [exact D1|].
  apply (D2 "c2" eq_refl); [discriminate| |reflexivity]. simpl. auto.
Defined.

(** X10. Presence broadcasts.  The avatar callback, a successful ["join"]
    and a disconnect each send every connected socket exactly one
    ["update-user-list"], whose payload is the presence view computed from
    the registry after the handler's write; no other successful handler
    sends that event to anybody. *)
Theorem presence_broadcast (e : Event) (st st' : State) (effs : list Effect)
    (tp : Transport) :
  step e st = Ok (st', effs) ->
  (broadcasts_presence e = true ->
   forall c, In c (connected tp) ->
     received c "update-user-list"
       (deliveries tp (sock_id (event_socket e)) effs)
     = [VArr (map user_to_js (getUniqueOnlineUsers (onlineUsers st')))])
  /\ (broadcasts_presence e = false ->
      received_by_any "update-user-list"
        (deliveries tp (sock_id (event_socket e)) effs) = []).
Proof.
  intros S.
  destruct e; cbn [broadcasts_presence event_socket];
    (split; [intros B c HIn | intros B]); try discriminate;
    cbn [step] in S;
    unfold on_connection, on_initiate_call, on_join, on_chat_message,
           on_private_chat, on_disconnect, on_offer, on_answer, on_ice in S.
  - inversion S; subst. apply everybody_reached, HIn.
  - read_payload data. destruct (falsy_id _); inversion S; subst.
    + reflexivity.
    + apply received_by_any_other_emit. reflexivity.
  - read_payload data. inversion S; subst.
    unfold update_user_list.
    rewrite deliveries_join, deliveries_cons, received_app.
    rewrite (everybody_reached _ _ _ _ _ HIn).
    rewrite received_other_emit by reflexivity. reflexivity.
  - read_payload data. inversion S; subst. rewrite deliveries_save.
    apply received_by_any_other_emit. reflexivity.
  - read_payload data. inversion S; subst. rewrite deliveries_save.
    destruct (falsy_id _); cbn [app].
    + reflexivity.
    + rewrite deliveries_cons, received_by_any_app.
      rewrite !received_by_any_other_emit by reflexivity. reflexivity.
  - inversion S; subst. apply everybody_reached, HIn.
  - read_payload d. inversion S; subst.
    apply received_by_any_other_emit. reflexivity.
  - read_payload d. inversion S; subst.
    apply received_by_any_other_emit. reflexivity.
  - read_payload d. inversion S; subst.
    apply received_by_any_other_emit. reflexivity.
Qed.

(** Witness of X10: bob joins [r1]; alice's socket [c2] receives the list in
    which bob is busy. *)
Lemma presence_broadcast_witness :
  received "c2" "update-user-list"
    (deliveries three_connected "c3"
       [JoinRoom (VStr "r1");
        update_user_list (markBusy "c3" (VStr "r1") (register bob VNull initial));
        Emit (ToRoom (VStr "r1")) "user-joined"
             (VObj [("id", VStr "c3"); ("username", VStr "bob")])])
  = [VArr [VObj [("username", VStr "bob"); ("isBusy", VBool true);
                 ("currentRoom", VStr "r1"); ("avatar", VNull)]]].
Proof.
  apply (proj1 (presence_broadcast (EvJoin bob (VObj [("room", VStr "r1")]))
                  (register bob VNull initial) _ _ three_connected eq_refl)
               eq_refl "c2").
  simpl. auto.
Defined.

(* ------------------------------------------------------------------ *)
(** ** The stamp on relayed messages *)

(** X11. In the object relayed by ["chat-message"] and ["private-chat"],
    [sender] and [time] are always the server's (the socket's username and
    the clock reading), also when the client's payload carried fields of
    these names; every other field of the client's object is relayed as
    sent. *)
Theorem stamp_fields (fields : list (string * JSVal)) (data : JSVal)
    (sender time k : string) :
  field (stamped data sender time) "sender" = VStr sender
  /\ field (stamped data sender time) "time" = VStr time
  /\ (k <> "sender" -> k <> "time" ->
      field (stamped (VObj fields) sender time) k = field (VObj fields) k).
Proof.
  unfold field. rewrite stamped_sender, stamped_time.
  split; [reflexivity|]. split; [reflexivity|].
  intros H1 H2. apply String.eqb_neq in H1, H2.
  unfold stamped. simpl. rewrite !get_set, H1, H2. reflexivity.
Qed.

(** Witness of X11: the forged [sender] is replaced, [text] is kept. *)
Lemma stamp_fields_witness :
  field (stamped room_message "alice" "10:00") "sender" = VStr "alice"
  /\ field (stamped room_message "alice" "10:00") "text" = VStr "hi".
Proof.
  split.
  - exact (proj1 (stamp_fields [] room_message "alice" "10:00" "text")).
  - exact (proj2 (proj2 (stamp_fields
                           [("room", VStr "r1"); ("text", VStr "hi");
                            ("image", VNull); ("sender", VStr "mallory")]
                           VNull "alice" "10:00" "text"))
                 ltac:(discriminate) ltac:(discriminate)).
Defined.

(* ------------------------------------------------------------------ *)
(** ** Rows written by the message handlers *)





(* ------------------------------------------------------------------ *)
(** ** The meeting code *)

Lemma digit_char_cases (P : ascii -> Prop) :
  P "0"%char -> P "1"%char -> P "2"%char -> P "3"%char -> P "4"%char ->
  P "5"%char -> P "6"%char -> P "7"%char -> P "8"%char -> P "9"%char ->
  forall d, P (digit_char d).
Proof.
  intros H0 H1 H2 H3 H4 H5 H6 H7 H8 H9 d.
  destruct d as [|p]; [exact H0|].
  do 4 (try destruct p as [p|p|]); assumption.
Qed.

Lemma is_digit_digit_char d : is_digit (digit_char d) = true.
Proof. apply digit_char_cases; reflexivity. Qed.

Lemma digit_char_not_dash d : Ascii.eqb (digit_char d) "-" = false.
Proof. apply digit_char_cases; reflexivity. Qed.

Lemma digit_value_digit_char d :
  (d < 10)%N -> digit_value (digit_char d) = Some d.
Proof.
  intros H. destruct d as [|p]; [reflexivity|].
  do 4 (try destruct p as [p|p|]); try reflexivity; lia.
Qed.

Lemma pow10_pos k : (0 < pow10 k)%N.
Proof. induction k; cbn [pow10]; lia. Qed.

Lemma div10_bounds k n :
  (pow10 (S k) <= n < pow10 (S (S k)))%N ->
  (pow10 k <= n / 10 < pow10 (S k))%N.
Proof.
  cbn [pow10]. intros [Hlo Hhi]. split.
  - apply N.div_le_lower_bound; lia.
  - apply N.Div0.div_lt_upper_bound. lia.
Qed.

Lemma to_digits_decimal k : forall f n acc,
  (pow10 k <= n < pow10 (S k))%N ->
  k < f ->
  to_digits f n acc = decimal (S k) n ++ acc.
Proof.
  induction k as [|k IH]; intros f n acc Hn Hf;
    (destruct f as [|f]; [lia|]); cbn [to_digits].
  - cbn [pow10] in Hn. rewrite N.div_small by lia. reflexivity.
  - pose proof (div10_bounds k n Hn) as Hq.
    pose proof (pow10_pos k) as Hp.
    destruct (N.eqb_spec (n / 10) 0) as [E|_]; [lia|].
    rewrite (IH f (n / 10)%N _ Hq) by lia.
    cbn [decimal]. rewrite <- !app_assoc. reflexivity.
Qed.

Lemma decimal_app a b : forall n,
  decimal (a + b) n = decimal a (n / pow10 b) ++ decimal b n.
Proof.
  induction b as [|b IH]; intros n.
  - rewrite Nat.add_0_r. cbn [pow10 decimal]. rewrite N.div_1_r, app_nil_r.
    reflexivity.
  - rewrite Nat.add_succ_r. cbn [decimal pow10].
    rewrite IH, N.Div0.div_div, app_assoc. reflexivity.
Qed.

Lemma length_decimal k : forall n, length (decimal k n) = k.
Proof.
  induction k as [|k IH]; intros n; cbn [decimal]; [reflexivity|].
  rewrite length_app, IH. simpl. lia.
Qed.

Lemma length_string_of_list l :
  String.length (string_of_list_ascii l) = length l.
Proof. induction l as [|c l IH]; simpl; [reflexivity|rewrite IH; reflexivity]. Qed.

Lemma toString_nine n :
  (100000000 <= n < 999999999)%N ->
  number_toString n = string_of_list_ascii (decimal 9 n).
Proof.
  intros Hn. unfold number_toString.
  assert (L : (26 <= N.log2 n)%N).
  { change 26%N with (N.log2 100000000). apply N.log2_le_mono. lia. }
  rewrite (to_digits_decimal 8) by (cbn [pow10]; lia).
  rewrite app_nil_r. reflexivity.
Qed.

Lemma replace_groups_nine a b c d e f g h i :
  replace_groups (map digit_char [a; b; c; d; e; f; g; h; i])
  = map digit_char [a; b; c] ++ "-"%char
      :: map digit_char [d; e; f] ++ "-"%char :: map digit_char [g; h; i].
Proof.
  cbn [map replace_groups forallb]. rewrite !is_digit_digit_char. reflexivity.
Qed.

Lemma grouped n :
  (100000000 <= n < 999999999)%N ->
  list_ascii_of_string (meeting_code n)
  = decimal 3 (n / 1000000) ++ "-"%char
      :: decimal 3 (n / 1000) ++ "-"%char :: decimal 3 n.
Proof.
  intros Hn. unfold meeting_code.
  rewrite (toString_nine n Hn), !list_ascii_of_string_of_list_ascii.
  change 9 with (3 + 6). rewrite decimal_app.
  change 6 with (3 + 3) at 2. rewrite decimal_app.
  change (pow10 6) with 1000000%N. change (pow10 3) with 1000%N.
  cbn [decimal app]. apply (replace_groups_nine _ _ _ _ _ _ _ _ _).
Qed.

(** X13. For every number that [crypto.randomInt(100000000, 999999999)] can
    return, the meeting code is made of eleven characters: the three digits
    of the millions, a dash, the three digits of the thousands, a dash, and
    the last three digits. *)
Theorem meeting_code_format (n : N) :
  (100000000 <= n < 999999999)%N ->
  meeting_code n
  = string_of_list_ascii
      (decimal 3 (n / 1000000) ++ "-"%char
         :: decimal 3 (n / 1000) ++ "-"%char :: decimal 3 n)
  /\ String.length (meeting_code n) = 11.
Proof.
  intros Hn.
  assert (E : meeting_code n
              = string_of_list_ascii
                  (decimal 3 (n / 1000000) ++ "-"%char
                     :: decimal 3 (n / 1000) ++ "-"%char :: decimal 3 n)).
  { rewrite <- (grouped n Hn). symmetry. apply string_of_list_ascii_of_string. }
  split; [exact E|].
  rewrite E, length_string_of_list, length_app. cbn [length].
  rewrite length_app. cbn [length]. rewrite !length_decimal. reflexivity.
Qed.

(** Witness of X13. *)
Lemma meeting_code_format_witness :
  meeting_code 120045007 = "120-045-007"
  /\ String.length (meeting_code 120045007) = 11.
Proof.
  exact (meeting_code_format 120045007 ltac:(lia)).
Defined.

Lemma parse_digits_app l1 : forall acc l2,
  parse_digits acc (l1 ++ l2)
  = match parse_digits acc l1 with
    | Some a => parse_digits a l2
    | None => None
    end.
Proof.
  induction l1 as [|c l1 IH]; intros acc l2; simpl; [reflexivity|].
  destruct (digit_value c); [apply IH|reflexivity].
Qed.

Lemma parse_decimal k : forall acc n,
  parse_digits acc (decimal k n) = Some (acc * pow10 k + n mod pow10 k)%N.
Proof.
  induction k as [|k IH]; intros acc n; cbn [decimal pow10].
  - simpl. rewrite N.mod_1_r. f_equal. lia.
  - rewrite parse_digits_app, IH. cbn [parse_digits].
    rewrite digit_value_digit_char by (apply N.mod_lt; lia).
    rewrite (N.Div0.mod_mul_r n 10 (pow10 k)). f_equal. lia.
Qed.

Lemma filter_decimal k : forall n,
  filter (fun c => negb (Ascii.eqb c "-")) (decimal k n) = decimal k n.
Proof.
  induction k as [|k IH]; intros n; cbn [decimal]; [reflexivity|].
  rewrite filter_app, IH. simpl. rewrite digit_char_not_dash. reflexivity.
Qed.

Lemma code_number_code n :
  (100000000 <= n < 999999999)%N -> code_number (meeting_code n) = Some n.
Proof.
  intros Hn. unfold code_number. rewrite (grouped n Hn).
  rewrite filter_app. cbn [filter]. change (negb (Ascii.eqb "-" "-")) with false.
  cbv iota. rewrite filter_app. cbn [filter].
  change (negb (Ascii.eqb "-" "-")) with false. cbv iota.
  rewrite !filter_decimal.
  change 1000000%N with (pow10 6). change 1000%N with (pow10 3).
  replace (decimal 3 (n / pow10 3) ++ decimal 3 n) with (decimal (3 + 3) n)
    by apply decimal_app.
  rewrite <- decimal_app, parse_decimal.
  change (pow10 (3 + (3 + 3))) with 1000000000%N.
  rewrite N.mod_small by lia. reflexivity.
Qed.

(** X14. The code determines the number: reading the digits of the code
    gives back the number drawn, so two different numbers in the range of
    [crypto.randomInt(100000000, 999999999)] never give the same code. *)
Theorem meeting_code_injective (n m : N) :
  (100000000 <= n < 999999999)%N ->
  (100000000 <= m < 999999999)%N ->
  code_number (meeting_code n) = Some n
  /\ (meeting_code n = meeting_code m -> n = m).
Proof.
  intros Hn Hm. split; [apply code_number_code, Hn|].
  intros E. apply (f_equal code_number) in E.
  rewrite !code_number_code in E by assumption. congruence.
Qed.

(** Witness of X14. *)
Lemma meeting_code_injective_witness :
  code_number (meeting_code 998877665) = Some 998877665%N
  /\ (meeting_code 998877665 = meeting_code 998877665 -> 998877665 = 998877665)%N.
Proof.
  exact (meeting_code_injective 998877665 998877665 ltac:(lia) ltac:(lia)).
Defined.

(* ------------------------------------------------------------------ *)
(** ** The bearer token *)

Lemma split_space_whole s : has_space s = false -> split_space s = [s].
Proof.
  induction s as [|c s IH]; simpl; [reflexivity|].
  destruct (Ascii.eqb c " "); simpl; [discriminate|].
  intros H. rewrite (IH H). reflexivity.
Qed.

Lemma split_space_first a b :
  has_space a = false ->
  split_space (a ++ String " " b)%string = a :: split_space b.
Proof.
  induction a as [|c a IH]; simpl.
  - reflexivity.
  - destruct (Ascii.eqb c " "); simpl; [discriminate|].
    intros H. rewrite (IH H). reflexivity.
Qed.

(** X15. The token the HTTP handlers verify is the second piece of the
    [Authorization] header cut at single spaces: for ["<scheme> <token>"]
    with no further space it is the token, also when more text follows after
    another space; a header without a space, or no header, gives
    [undefined]; and a second space directly after the first gives the empty
    string. *)
Theorem bearer_token_pieces (scheme token rest : string) :
  has_space scheme = false ->
  has_space token = false ->
  bearer_token (Some (scheme ++ " " ++ token)%string) = Some token
  /\ bearer_token (Some (scheme ++ " " ++ token ++ " " ++ rest)%string) = Some token
  /\ bearer_token (Some scheme) = None
  /\ bearer_token None = None
  /\ bearer_token (Some (scheme ++ "  " ++ rest)%string) = Some "".
Proof.
  intros Hs Ht. unfold bearer_token.
  split; [|split; [|split; [|split]]].
  - change (scheme ++ " " ++ token)%string with (scheme ++ String " " token)%string.
    rewrite (split_space_first _ _ Hs), (split_space_whole _ Ht). reflexivity.
  - change (scheme ++ " " ++ token ++ " " ++ rest)%string
      with (scheme ++ String " " (token ++ String " " rest))%string.
    rewrite (split_space_first _ _ Hs), (split_space_first _ _ Ht). reflexivity.
  - rewrite (split_space_whole _ Hs). reflexivity.
  - reflexivity.
  - change (scheme ++ "  " ++ rest)%string
      with (scheme ++ String " " (String " " rest))%string.
    rewrite (split_space_first _ _ Hs). reflexivity.
Qed.

(** Witness of X15. *)
Lemma bearer_token_pieces_witness :
  bearer_token (Some "Bearer abc.def.ghi") = Some "abc.def.ghi"
  /\ bearer_token (Some "Bearer abc.def.ghi x") = Some "abc.def.ghi"
  /\ bearer_token (Some "Bearer") = None
  /\ bearer_token None = None
  /\ bearer_token (Some "Bearer  x") = Some "".
Proof.
  exact (bearer_token_pieces "Bearer" "abc.def.ghi" "x" eq_refl eq_refl).
Defined.

(* ------------------------------------------------------------------ *)
(** ** The conversation sent to the assistant *)

Lemma filter_complement (A : Type) (f : A -> bool) (l : list A) :
  filter f (filter (fun x => negb (f x)) l) = [].
Proof.
  induction l as [|x l IH]; simpl; [reflexivity|].
  destruct (f x) eqn:E; simpl; [exact IH|]. rewrite E. exact IH.
Qed.

(** X16. The conversation built for the assistant ends with the user's new
    message as a ["user"] turn; the turns before it are the stored rows from
    oldest to newest, ["model"] for the assistant's rows and ["user"] for the
    others, without any row whose text is the new message, so there are at
    most as many as rows; a new message that is a string, number or
    boolean therefore occurs exactly once, last; and when the history query
    failed the conversation is that one turn. *)
Theorem chat_history_shape (results : option (list Row)) (message : JSVal) :
  exists earlier,
    chat_history results message = earlier ++ [mkTurn "user" message]
    /\ earlier
       = filter (fun h => negb (strict_equal (turn_text h) message))
           (rev (map turn_of_row
                     (match results with Some r => r | None => [] end)))
    /\ Forall (fun h => strict_equal (turn_text h) message = false) earlier
    /\ length earlier <= length (match results with Some r => r | None => [] end)
    /\ (names_a_room message = true ->
        filter (fun h => strict_equal (turn_text h) message)
               (chat_history results message)
        = [mkTurn "user" message])
    /\ (results = None -> earlier = []).
Proof.
  eexists. split; [reflexivity|]. split; [rewrite map_rev; reflexivity|].
  split; [|split; [|split]].
  - apply Forall_forall. intros h H. apply filter_In in H.
    destruct H as [_ H]. apply negb_true_iff in H. exact H.
  - etransitivity; [apply filter_length_le|].
    rewrite length_map, length_rev. apply le_n.
  - intros Hm. unfold chat_history. rewrite filter_app.
    rewrite (filter_complement _ (fun h => strict_equal (turn_text h) message)).
    simpl. unfold strict_equal. unfold names_a_room in Hm. rewrite Hm. reflexivity.
  - intros ->. reflexivity.
Qed.

(** Witness of X16: the newest row is the message just saved. *)
Lemma chat_history_shape_witness :
  filter (fun h => strict_equal (turn_text h) (VStr "hi"))
         (chat_history
            (Some [mkRow "bob" (VStr "hi"); mkRow "V-Chat AI" (VStr "hello");
                   mkRow "bob" (VStr "hey")]) (VStr "hi"))
  = [mkTurn "user" (VStr "hi")]
  /\ chat_history
       (Some [mkRow "bob" (VStr "hi"); mkRow "V-Chat AI" (VStr "hello");
              mkRow "bob" (VStr "hey")]) (VStr "hi")
     = [mkTurn "user" (VStr "hey"); mkTurn "model" (VStr "hello");
        mkTurn "user" (VStr "hi")].
Proof.
  destruct (chat_history_shape
              (Some [mkRow "bob" (VStr "hi"); mkRow "V-Chat AI" (VStr "hello");
                     mkRow "bob" (VStr "hey")]) (VStr "hi"))
    as [earlier [_ [_ [_ [_ [C _]]]]]].
  split; [exact (C eq_refl)|reflexivity].
Defined.

(* ------------------------------------------------------------------ *)
(** ** Disconnect *)

Lemma delete_twice (V : Type) k (m : JSMap.t V) :
  JSMap.delete k (JSMap.delete k m) = JSMap.delete k m.
Proof.
  unfold JSMap.delete. induction m as [|[k0 v0] rest IH]; simpl; [reflexivity|].
  destruct (String.eqb k k0) eqn:E; simpl; [exact IH|].
  rewrite E. simpl. rewrite IH. reflexivity.
Qed.

(** X17. What a disconnect does to the registry: the socket's session is
    gone and its username has no route; every other socket's session and
    every other username's route are as before; and handling the disconnect
    of the same socket a second time changes nothing more. *)
Theorem disconnect_effect (s : Socket) (st : State) (c u : string) :
  JSMap.get (sock_id s) (onlineUsers (unregister s st)) = None
  /\ routeTo (unregister s st) (VStr (sock_username s)) = None
  /\ (c <> sock_id s ->
      JSMap.get c (onlineUsers (unregister s st)) = JSMap.get c (onlineUsers st))
  /\ (u <> sock_username s ->
      routeTo (unregister s st) (VStr u) = routeTo st (VStr u))
  /\ unregister s (unregister s st) = unregister s st.
Proof.
  split; [|split; [|split; [|split]]].
  - rewrite session_after_unregister, String.eqb_refl. reflexivity.
  - simpl. rewrite get_delete, String.eqb_refl. reflexivity.
  - intros H. apply String.eqb_neq in H.
    rewrite session_after_unregister, H. reflexivity.
  - intros H. apply String.eqb_neq in H. simpl.
    rewrite get_delete, H. reflexivity.
  - unfold unregister. simpl. rewrite !delete_twice. reflexivity.
Qed.

(** Witness of X17: alice's first socket disconnects; bob keeps session and
    route. *)
Lemma disconnect_effect_witness :
  JSMap.get "c3" (onlineUsers (unregister alice1
                     (register bob VNull (register alice1 VNull initial))))
  = Some (mkUser "bob" false VNull VNull)
  /\ routeTo (unregister alice1
                (register bob VNull (register alice1 VNull initial))) (VStr "bob")
     = Some "c3".
Proof.
  destruct (disconnect_effect alice1
              (register bob VNull (register alice1 VNull initial)) "c3" "bob")
    as [_ [_ [S [R _]]]].
  split.
  - rewrite S; [reflexivity|discriminate].
  - rewrite R; [reflexivity|discriminate].
Defined.

(* ------------------------------------------------------------------ *)
(** ** Forwards that reach nobody *)

Lemma nobody_addressed tp sender t ev payload :
  members tp (VStr t) = [] ->
  deliveries tp sender [Emit (ToRoom (VStr t)) ev payload] = [].
Proof.
  intros H. unfold deliveries. simpl.
  rewrite addressed_one, H. reflexivity.
Qed.

(** X18. No forward checks that its target is connected.  When the route
    of the called username leads to a socket id that is not in the transport
    (its registration came after its disconnect) an ["initiate-call"] is
    delivered to nobody and the caller is told nothing; the same holds for an
    ["offer"], ["answer"] or ["ice"] addressed to such an id. *)
Theorem forward_to_absent_socket (s : Socket) (data : JSVal) (st : State)
    (tp : Transport) (u t : string) :
  members tp (VStr t) = [] ->
  t <> "" ->
  (get_prop data "target" = Ok (VStr u) ->
   routeTo st (VStr u) = Some t ->
   exists effs, on_initiate_call s data st = Ok (st, effs)
                /\ deliveries tp (sock_id s) effs = [])
  /\ (get_prop data "to" = Ok (VStr t) ->
      exists e1 e2 e3,
        on_offer s data st = Ok (st, e1)
        /\ on_answer s data st = Ok (st, e2)
        /\ on_ice s data st = Ok (st, e3)
        /\ deliveries tp (sock_id s) (e1 ++ e2 ++ e3) = []).
Proof.
  intros Hm Hne. split.
  - intros Ht Hr. destruct (get_prop_inv _ _ _ Ht) as [N _].
    eexists. split.
    + unfold on_initiate_call. rewrite Ht. cbn [bind].
      rewrite Hr. cbn [falsy_id id_or_undefined].
      apply String.eqb_neq in Hne. rewrite Hne.
      rewrite !(get_prop_ok _ _ N). reflexivity.
    + apply nobody_addressed, Hm.
  - intros Ht. destruct (get_prop_inv _ _ _ Ht) as [N _].
    unfold on_offer, on_answer, on_ice. rewrite Ht. cbn [bind].
    rewrite !(get_prop_ok _ _ N). cbn [bind].
    eexists. eexists. eexists. repeat (split; [reflexivity|]).
    cbn [app].
    rewrite deliveries_cons, nobody_addressed by exact Hm.
    rewrite deliveries_cons, nobody_addressed by exact Hm.
    apply nobody_addressed, Hm.
Qed.

(** Witness of X18: bob's socket [c3] closed before its avatar callback
    fired, so bob has a route to [c3] while only [c1] is connected; alice's
    call reaches nobody. *)
Lemma forward_to_absent_socket_witness :
  exists st effs,
    run [EvRegister alice1 VNull; EvDisconnect bob; EvRegister bob VNull] initial
    = Ok st
    /\ routeTo st (VStr "bob") = Some "c3"
    /\ on_initiate_call alice1 (call_payload "bob") st = Ok (st, effs)
    /\ deliveries (tp_connect "c1" []) "c1" effs = [].
Proof.
  eexists.
  destruct (proj1 (forward_to_absent_socket alice1 (call_payload "bob")
                     (register bob VNull
                        (unregister bob (register alice1 VNull initial)))
                     (tp_connect "c1" []) "bob" "c3" eq_refl ltac:(discriminate))
                  eq_refl eq_refl) as [effs [R D]].
  exists effs. split; [reflexivity|]. split; [reflexivity|]. split; assumption.
Defined.
